(** * Trivia API: the Flask route handlers of [backend/flaskr/__init__.py]

    A shallow embedding of the request handlers and of the pagination
    helper, with the properties of the written specification proved (or
    refuted) on it.

    Modelling decisions, fixed once for the whole development:
    - Python values that reach the handlers come out of [request.get_json()]
      and go into [jsonify]; they are the type [value].  JSON numbers are
      modelled as integers ([Z]); floating point is left out.  A text is a
      [string] whose elements stand for its characters: the texts covered
      are those of one-byte characters (ASCII), where a character and a
      byte are the same thing and the letters that case folding touches
      are [A]-[Z]; a text with other characters is not represented.
    - [request.get_json()] either yields the parsed body or raises the
      [HTTPException] with which it rejects the request ([body]).
    - A handler is a computation in the monad [M]: it reads and changes the
      SQLAlchemy session ([store]) and either returns or raises.  [dispatch]
      is what Flask does around a view function: an [HTTPException] raised
      by [abort] goes to the registered error handler, any other exception
      that leaves the view is a 500, and the session is closed.
    - What the handlers leave to their surroundings (the random choice, a
      commit that fails, how the database driver binds a value that is not
      of the column's type, [repr] of a list or dict) is the record
      [environment], an explicit argument.
    - Queries that only read are total: a lost database connection is not
      modelled. *)

From Stdlib Require Import ZArith String Ascii Bool Lia List.
From Stdlib Require Import DecimalString DecimalPos DecimalZ.
From Stdlib Require Import Permutation Sorted.
Local Open Scope string_scope.
Import ListNotations.
Local Open Scope list_scope.
Local Open Scope Z_scope.

(** ** Python values *)

Module Py.

(** Keys of a dict: JSON objects have string keys, the dict
    comprehension [{category.id: category.type ...}] has integer keys. *)
Inductive key : Type :=
| KStr (s : string)
| KInt (z : Z).

#[warnings="-register-all"]
Inductive value : Type :=
| VNone
| VBool (b : bool)
| VInt (z : Z)
| VStr (s : string)
| VList (l : list value)
| VDict (d : list (key * value)).

Definition key_eqb (a b : key) : bool :=
  match a, b with
  | KStr s, KStr t => String.eqb s t
  | KInt x, KInt y => Z.eqb x y
  | _, _ => false
  end.

Lemma key_eqb_eq a b : key_eqb a b = true <-> a = b.
Proof.
  destruct a as [s|x], b as [t|y]; simpl; try (split; congruence).
  - rewrite String.eqb_eq. split; congruence.
  - rewrite Z.eqb_eq. split; congruence.
Qed.

(** Truth value of an object, as [if x:], [not x] and [and] test it. *)
Definition truthy (v : value) : bool :=
  match v with
  | VNone => false
  | VBool b => b
  | VInt z => negb (Z.eqb z 0)
  | VStr s => negb (String.eqb s "")
  | VList l => match l with [] => false | _ :: _ => true end
  | VDict d => match d with [] => false | _ :: _ => true end
  end.

(** [a and b]: the first operand when it is falsy, else the second. *)
Definition and_ (a b : value) : value := if truthy a then b else a.

(** Exceptions the handlers can meet. [HTTPException] is what [abort]
    raises; like the others it is an [Exception]. *)
Inductive exn : Type :=
| HTTPException (code : Z)
| AttributeError
| KeyError
| TypeError
| ArgumentError
| DBAPIError.

Inductive result (A : Type) : Type :=
| Return (a : A)
| Raise (e : exn).
Arguments Return {A} a.
Arguments Raise {A} e.

(** Lookup in a dict built from pairs. *)
Fixpoint lookup (k : key) (d : list (key * value)) : option value :=
  match d with
  | [] => None
  | (k', v) :: d' => if key_eqb k k' then Some v else lookup k d'
  end.

(** [d[k] = v]: replaces the value of an existing key in place, else
    adds the pair at the end. *)
Fixpoint setitem (k : key) (v : value) (d : list (key * value))
  : list (key * value) :=
  match d with
  | [] => [(k, v)]
  | (k', v') :: d' =>
      if key_eqb k k' then (k', v) :: d' else (k', v') :: setitem k v d'
  end.

(** [data.get(name, default)]: a method of dicts only. *)
Definition get (data : value) (name : string) (default : value)
  : result value :=
  match data with
  | VDict d =>
      match lookup (KStr name) d with
      | Some v => Return v
      | None => Return default
      end
  | _ => Raise AttributeError
  end.

(** [obj[name]] with a string subscript: a dict raises [KeyError] for a
    missing key; a list or string wants integer indices; the other
    values are not subscriptable. *)
Definition getitem (obj : value) (name : string) : result value :=
  match obj with
  | VDict d =>
      match lookup (KStr name) d with
      | Some v => Return v
      | None => Raise KeyError
      end
  | _ => Raise TypeError
  end.

(** [str(n)] for an integer: decimal, with a minus sign. *)
Definition str_int (z : Z) : string :=
  NilZero.string_of_int (Z.to_int z).

(** [str(v)], also what an f-string field [{v}] gives. [repr] is
    Python's rendering of a list or dict. *)
Definition str (repr : value -> string) (v : value) : string :=
  match v with
  | VNone => "None"
  | VBool true => "True"
  | VBool false => "False"
  | VInt z => str_int z
  | VStr s => s
  | VList _ | VDict _ => repr v
  end.

(** Index adjustment of a slice bound on a sequence of length [len]. *)
Definition adjust_index (len i : Z) : Z :=
  if i <? 0 then Z.max (i + len) 0 else Z.min i len.

(** [l[start:stop]]. *)
Definition slice {A : Type} (l : list A) (start stop : Z) : list A :=
  let len := Z.of_nat (length l) in
  let lo := adjust_index len start in
  let hi := adjust_index len stop in
  if lo <? hi
  then firstn (Z.to_nat (hi - lo)) (skipn (Z.to_nat lo) l)
  else [].

End Py.
Import Py.

(** ** What the queries use of SQL *)

Module Sql.

(** Case folding of [ILIKE], on the ASCII letters. *)
Definition lower (c : ascii) : ascii :=
  let n := nat_of_ascii c in
  if (Nat.leb 65 n && Nat.leb n 90)%bool
  then ascii_of_nat (n + 32)%nat
  else c.

Definition ci_eqb (c d : ascii) : bool := Ascii.eqb (lower c) (lower d).

(** [text ILIKE pattern]: [%] stands for any run of characters, [_] for
    any one character, a backslash makes the next pattern character
    literal, and every other character stands for itself up to case.
    An element of a [string] is one character here (see the modelling
    decisions): this is the database's matching on texts of one-byte
    characters, not a matching on the bytes of an encoded text.
    (The database rejects a pattern that ends in a lone backslash; the
    patterns built here end in [%], so that case is not met.) *)
Fixpoint ilike (pattern : string) : string -> bool :=
  match pattern with
  | EmptyString =>
      fun text => match text with EmptyString => true | _ => false end
  | String c p =>
      if Ascii.eqb c "%" then
        fix any_run (text : string) : bool :=
          (ilike p text
           || match text with
              | EmptyString => false
              | String _ text' => any_run text'
              end)%bool
      else if Ascii.eqb c "_" then
        fun text =>
          match text with
          | EmptyString => false
          | String _ text' => ilike p text'
          end
      else if Ascii.eqb c "\" then
        match p with
        | EmptyString => fun _ => false
        | String e p' =>
            fun text =>
              match text with
              | EmptyString => false
              | String d text' => (ci_eqb e d && ilike p' text')%bool
              end
        end
      else
        fun text =>
          match text with
          | EmptyString => false
          | String d text' => (ci_eqb c d && ilike p text')%bool
          end
  end.

(** [column NOT IN (e1, ..., en)] under SQL's three-valued logic, for an
    integer column and elements that are integers or [NULL] ([None]):
    a row passes the filter only when the test is true, which a [NULL]
    among the elements never lets it be. *)
Definition not_in (elements : list (option Z)) (x : Z) : bool :=
  (forallb (fun e => match e with Some _ => true | None => false end)
     elements
   && negb (existsb (fun e => match e with
                              | Some y => Z.eqb x y
                              | None => false
                              end) elements))%bool.

End Sql.

(** ** The two tables *)

(** Modelled from the spec: [models.py], which declares [Question] and
    [Category], is not among the sources.  The columns and the shape of
    [format()] are those of the spec's data model: a question is
    [{id, question, answer, category, difficulty}] with [category] stored
    as text, a category is an integer [id] with a [type] label. *)
Module Question.
Record t : Type := {
  id : Z;
  question : string;
  answer : string;
  category : string;
  difficulty : Z
}.

Definition format (q : t) : value :=
  VDict [ (KStr "id", VInt (id q));
          (KStr "question", VStr (question q));
          (KStr "answer", VStr (answer q));
          (KStr "category", VStr (category q));
          (KStr "difficulty", VInt (difficulty q)) ].
End Question.

Module Category.
Record t : Type := {
  id : Z;
  type : string
}.
End Category.

(** The database: the committed rows of the two tables and the next value
    of the id sequence of [questions]. *)
Record database : Type := {
  questions : list Question.t;
  categories : list Category.t;
  next_id : Z
}.

(** The database as a request sees it through its session: what is
    committed, and the ids of the rows marked by [session.delete] that the
    open transaction has not yet written. *)
Record store : Type := {
  committed : database;
  pending_delete : list Z
}.

(** What a request's surroundings decide. *)
Record environment : Type := {
  (** the index [random.choice] draws *)
  choice : nat;
  (** whether the commit of this request's transaction raises *)
  commit_raises : bool;
  (** how the driver binds a value that is not a string to a text column,
      and a value that is not an integer to an integer column; [None]
      when it (or the database) rejects the value *)
  driver_text : value -> option string;
  driver_integer : value -> option Z;
  (** [repr] of a list or dict *)
  repr : value -> string
}.

(** ** Computations of a view function *)

Definition M (A : Type) : Type := store -> result A * store.

Definition ret {A} (a : A) : M A := fun s => (Return a, s).

Definition bind {A B} (m : M A) (f : A -> M B) : M B :=
  fun s =>
    match m s with
    | (Return a, s') => f a s'
    | (Raise e, s') => (Raise e, s')
    end.

Definition raise {A} (e : exn) : M A := fun s => (Raise e, s).

(** A pure Python operation that may raise. *)
Definition lift {A} (r : result A) : M A := fun s => (r, s).

(** [try: body  except Exception as e: handler]. *)
Definition try_except {A} (body : M A) (handler : exn -> M A) : M A :=
  fun s =>
    match body s with
    | (Return a, s') => (Return a, s')
    | (Raise e, s') => handler e s'
    end.

Notation "x <- m ;; k" := (bind m (fun x => k))
  (at level 61, m at next level, right associativity).
Notation "m ;;; k" := (bind m (fun _ => k))
  (at level 61, right associativity).

(** [abort(code)]. *)
Definition abort {A} (code : Z) : M A := raise (HTTPException code).

(** ** The session and the queries *)

(** [Category.query.all()] and [Question.query.filter(...).all()]. *)
Definition Category_query_all : M (list Category.t) :=
  fun s => (Return (categories (committed s)), s).

Definition Question_query_filter (criterion : Question.t -> bool)
  : M (list Question.t) :=
  fun s => (Return (List.filter criterion (questions (committed s))), s).

(** [order_by(Question.id)]: the rows in increasing order of id. *)
Fixpoint insert_by_id (q : Question.t) (l : list Question.t)
  : list Question.t :=
  match l with
  | [] => [q]
  | r :: l' =>
      if Question.id q <=? Question.id r then q :: r :: l'
      else r :: insert_by_id q l'
  end.

Fixpoint order_by_id (l : list Question.t) : list Question.t :=
  match l with
  | [] => []
  | q :: l' => insert_by_id q (order_by_id l')
  end.

Definition Question_query_order_by_id_all : M (list Question.t) :=
  fun s => (Return (order_by_id (questions (committed s))), s).

(** [session.get(Question, question_id)]: the row of that primary key. *)
Definition session_get (question_id : Z) : M (option Question.t) :=
  fun s =>
    (Return (List.find (fun q => Question.id q =? question_id)
               (questions (committed s))),
     s).

(** [session.delete(question)] marks the row; nothing is written yet. *)
Definition session_delete (q : Question.t) : M unit :=
  fun s =>
    (Return tt,
     {| committed := committed s;
        pending_delete := Question.id q :: pending_delete s |}).

(** [session.commit()] writes the marked deletions, or raises and writes
    nothing. *)
Definition session_commit (env : environment) : M unit :=
  fun s =>
    if commit_raises env then (Raise DBAPIError, s)
    else
      (Return tt,
       {| committed :=
            {| questions :=
                 List.filter
                   (fun q => negb (existsb (Z.eqb (Question.id q))
                                     (pending_delete s)))
                   (questions (committed s));
               categories := categories (committed s);
               next_id := next_id (committed s) |};
          pending_delete := [] |}).

(** [session.rollback()]: what was not committed is dropped. *)
Definition session_rollback : M unit :=
  fun s => (Return tt, {| committed := committed s; pending_delete := [] |}).

(** Binding of Python values to a text and to an integer column. *)
Definition bind_text (env : environment) (v : value) : option string :=
  match v with
  | VStr s => Some s
  | _ => driver_text env v
  end.

Definition bind_integer (env : environment) (v : value) : option Z :=
  match v with
  | VInt z => Some z
  | _ => driver_integer env v
  end.

(** Modelled from the spec: [Question(question=..., answer=...,
    category=..., difficulty=...)] followed by [insert()] and the read of
    the new [id]; [insert] is declared in [models.py], which is not among
    the sources.  It adds the row and commits: the row gets an
    auto-generated id, and any persistence error is an exception that
    leaves the table as it was. *)
Definition Question_insert (env : environment)
    (question_text answer category difficulty : value) : M Z :=
  fun s =>
    match bind_text env question_text, bind_text env answer,
          bind_text env category, bind_integer env difficulty with
    | Some q, Some a, Some c, Some d =>
        if commit_raises env then (Raise DBAPIError, s)
        else
          let db := committed s in
          (Return (next_id db),
           {| committed :=
                {| questions :=
                     questions db ++
                     [ {| Question.id := next_id db; Question.question := q;
                          Question.answer := a; Question.category := c;
                          Question.difficulty := d |} ];
                   categories := categories db;
                   next_id := next_id db + 1 |};
              pending_delete := pending_delete s |})
    | _, _, _, _ => (Raise DBAPIError, s)
    end.

(** [Question.id.notin_(previous_questions)]: SQLAlchemy takes any iterable
    that is not a string and makes a list of it.  Of the values a JSON
    body can hold, a list gives its elements and a dict gives its keys; a
    string, a number, a boolean or [None] is an [ArgumentError].  The
    elements are then bound to the integer column, [None] as [NULL]. *)
Definition key_value (k : key) : value :=
  match k with
  | KStr s => VStr s
  | KInt z => VInt z
  end.

Definition iterable_items (v : value) : option (list value) :=
  match v with
  | VList l => Some l
  | VDict d => Some (List.map (fun kv => key_value (fst kv)) d)
  | _ => None
  end.

Definition bind_element (env : environment) (v : value)
  : option (option Z) :=
  match v with
  | VNone => Some None
  | _ => option_map Some (bind_integer env v)
  end.

Fixpoint bind_elements (env : environment) (l : list value)
  : option (list (option Z)) :=
  match l with
  | [] => Some []
  | v :: l' =>
      match bind_element env v, bind_elements env l' with
      | Some e, Some es => Some (e :: es)
      | _, _ => None
      end
  end.

Definition notin_ (env : environment) (previous_questions : value)
  : result (Z -> bool) :=
  match iterable_items previous_questions with
  | Some l =>
      match bind_elements env l with
      | Some es => Return (Sql.not_in es)
      | None => Raise DBAPIError
      end
  | None => Raise ArgumentError
  end.

(** [random.choice(seq)] on a non-empty sequence [first :: rest]. *)
Definition random_choice {A} (env : environment) (first : A) (rest : list A)
  : A :=
  nth (Nat.modulo (choice env) (S (List.length rest))) (first :: rest) first.

(** ** Requests and responses *)

(** The [page] parameter of the query string: absent, a text that [int]
    accepts (with its value), or any other text. *)
Inductive query_arg : Type :=
| NoArg
| IntArg (n : Z)
| TextArg.

(** What [request.get_json()] has to offer: the parsed body, or the
    [HTTPException] it raises instead -- [BadRequest] (400) for a body
    that is not valid JSON, and, for a content type that is not JSON,
    400 or [UnsupportedMediaType] (415) by the version of Werkzeug. *)
Inductive body : Type :=
| Parsed (data : value)
| Rejected (code : Z).

Coercion Parsed : value >-> body.

Record request : Type := {
  args_page : query_arg;
  get_json : body
}.

(** [request.get_json()]. *)
Definition request_get_json (r : request) : M value :=
  match get_json r with
  | Parsed data => ret data
  | Rejected code => raise (HTTPException code)
  end.

(** [request.args.get('page', 1, type=int)]: the default also stands in
    for a value that [int] rejects. *)
Definition args_get_page (r : request) : Z :=
  match args_page r with
  | IntArg n => n
  | NoArg | TextArg => 1
  end.

(** A response is a JSON body with a status, or a page of the framework
    that no handler of the application wrote. *)
Inductive response : Type :=
| Json (status : Z) (body : value)
| FrameworkError (status : Z).

Definition jsonify (body : list (key * value)) : response :=
  Json 200 (VDict body).

Definition status_code (r : response) : Z :=
  match r with
  | Json status _ => status
  | FrameworkError status => status
  end.

(** ** flaskr *)

Definition QUESTIONS_PER_PAGE : Z := 10.

Definition paginate_questions (r : request) (selection : list Question.t)
  : list value :=
  let page := args_get_page r in
  let start := (page - 1) * QUESTIONS_PER_PAGE in
  let end_ := start + QUESTIONS_PER_PAGE in
  let questions := List.map Question.format selection in
  slice questions start end_.

(** The dict comprehension [{category.id: category.type for category in
    categories}]. *)
Definition categories_dict (cats : list Category.t) : value :=
  VDict (fold_left
           (fun d c => setitem (KInt (Category.id c)) (VStr (Category.type c)) d)
           cats []).

Definition get_categories : M response :=
  categories <- Category_query_all ;;
  if (List.length categories =? 0)%nat then abort 404
  else
    ret (jsonify [ (KStr "success", VBool true);
                   (KStr "categories", categories_dict categories) ]).

Definition get_questions (r : request) : M response :=
  selection <- Question_query_order_by_id_all ;;
  let current_questions := paginate_questions r selection in
  categories <- Category_query_all ;;
  if (List.length current_questions =? 0)%nat then abort 404
  else
    ret (jsonify
           [ (KStr "success", VBool true);
             (KStr "questions", VList current_questions);
             (KStr "total_questions",
               VInt (Z.of_nat (List.length selection)));
             (KStr "categories", categories_dict categories);
             (KStr "current_category", VNone) ]).

Definition delete_question (env : environment) (question_id : Z)
  : M response :=
  question <- session_get question_id ;;
  match question with
  | None => abort 404
  | Some question =>
      try_except
        (session_delete question ;;;
         session_commit env ;;;
         ret (jsonify [ (KStr "success", VBool true);
                        (KStr "deleted", VInt question_id) ]))
        (fun e => session_rollback ;;; abort 422)
  end.

Definition create_question (env : environment) (r : request) : M response :=
  data <- request_get_json r ;;
  question_text <- lift (get data "question" VNone) ;;
  answer <- lift (get data "answer" VNone) ;;
  category <- lift (get data "category" VNone) ;;
  difficulty <- lift (get data "difficulty" VNone) ;;
  if negb (truthy (and_ question_text
                     (and_ answer (and_ category difficulty))))
  then abort 422
  else
    try_except
      (created <- Question_insert env question_text answer category
                    difficulty ;;
       ret (jsonify [ (KStr "success", VBool true);
                      (KStr "created", VInt created) ]))
      (fun e => abort 422).

Definition search_questions (env : environment) (r : request) : M response :=
  data <- request_get_json r ;;
  search_term <- lift (get data "searchTerm" (VStr "")) ;;
  results <- Question_query_filter
               (fun q =>
                  Sql.ilike ("%" ++ str (repr env) search_term ++ "%")
                    (Question.question q)) ;;
  ret (jsonify
         [ (KStr "success", VBool true);
           (KStr "questions", VList (List.map Question.format results));
           (KStr "total_questions", VInt (Z.of_nat (List.length results))) ]).

Definition get_questions_by_category (category_id : Z) : M response :=
  questions <- Question_query_filter
                 (fun q =>
                    String.eqb (Question.category q) (str_int category_id)) ;;
  if (List.length questions =? 0)%nat then abort 404
  else
    ret (jsonify
           [ (KStr "success", VBool true);
             (KStr "questions", VList (List.map Question.format questions));
             (KStr "total_questions",
               VInt (Z.of_nat (List.length questions)));
             (KStr "current_category", VInt category_id) ]).

Definition play_quiz (env : environment) (r : request) : M response :=
  data <- request_get_json r ;;
  previous_questions <- lift (get data "previous_questions" (VList [])) ;;
  quiz_category <- lift (get data "quiz_category" VNone) ;;
  try_except
    (category_id <- lift (getitem quiz_category "id") ;;
     questions <-
       (if truthy category_id then
          not_previous <- lift (notin_ env previous_questions) ;;
          Question_query_filter
            (fun q =>
               (String.eqb (Question.category q)
                  (str (repr env) category_id)
                && not_previous (Question.id q))%bool)
        else
          not_previous <- lift (notin_ env previous_questions) ;;
          Question_query_filter (fun q => not_previous (Question.id q))) ;;
     let question :=
       match questions with
       | first :: rest => Question.format (random_choice env first rest)
       | [] => VNone
       end in
     ret (jsonify [ (KStr "success", VBool true);
                    (KStr "question", question) ]))
    (fun e => abort 422).

(** The error handlers the application registers. *)
Definition error_envelope (code : Z) (message : string) : response :=
  Json code (VDict [ (KStr "success", VBool false);
                     (KStr "error", VInt code);
                     (KStr "message", VStr message) ]).

Definition not_found : response := error_envelope 404 "Resource not found".
Definition unprocessable_entity : response :=
  error_envelope 422 "Unprocessable entity".
Definition bad_request : response := error_envelope 400 "Bad request".

Definition errorhandler (code : Z) : response :=
  if code =? 404 then not_found
  else if code =? 422 then unprocessable_entity
  else if code =? 400 then bad_request
  else FrameworkError code.

(** What Flask does with a view function: it runs in a session of its own;
    the answer is its response, or the handler of the [HTTPException] it
    raised, or a 500 for any other exception; when the session ends, what
    it did not commit is gone. *)
Definition dispatch (view : M response) (db : database)
  : response * database :=
  match view {| committed := db; pending_delete := [] |} with
  | (Return resp, s') => (resp, committed s')
  | (Raise (HTTPException code), s') => (errorhandler code, committed s')
  | (Raise _, s') => (FrameworkError 500, committed s')
  end.

(** ** Sample data *)

(** An environment whose driver rejects every value that is not of the
    column's type, whose commits go through, and whose random draw is the
    first candidate. *)
Definition strict_env : environment :=
  {| choice := 0%nat;
     commit_raises := false;
     driver_text := fun _ => None;
     driver_integer := fun _ => None;
     repr := fun _ => "" |}.

Definition failing_env : environment :=
  {| choice := 0%nat;
     commit_raises := true;
     driver_text := fun _ => None;
     driver_integer := fun _ => None;
     repr := fun _ => "" |}.

Definition sample_question (n : Z) (text cat : string) : Question.t :=
  {| Question.id := n; Question.question := text; Question.answer := "yes";
     Question.category := cat; Question.difficulty := 1 |}.

Definition science : Category.t := {| Category.id := 1; Category.type := "Science" |}.
Definition art : Category.t := {| Category.id := 2; Category.type := "Art" |}.

(** Three questions in two categories. *)
Definition small_db : database :=
  {| questions := [ sample_question 3 "Is the title short?" "2";
                    sample_question 1 "What is the Capital of France?" "1";
                    sample_question 2 "abc" "1" ];
     categories := [ science; art ];
     next_id := 4 |}.

(** Eleven questions, one more than a page. *)
Definition eleven_db : database :=
  {| questions :=
       List.map (fun n => sample_question n "abc" "1")
         [1; 2; 3; 4; 5; 6; 7; 8; 9; 10; 11];
     categories := [ science; art ];
     next_id := 12 |}.

Definition get_request (page : query_arg) : request :=
  {| args_page := page; get_json := VNone |}.

Definition post_request (body : value) : request :=
  {| args_page := NoArg; get_json := body |}.

(** * Properties *)

(** ** Reading the body *)

Lemma bind_request_get_json {A} (page : query_arg) (data : value)
    (k : value -> M A) :
  bind (request_get_json {| args_page := page; get_json := data |}) k
  = k data.
Proof. reflexivity. Qed.

Lemma errorhandler_not_200 (code : Z) (resp : value) :
  errorhandler code <> Json 200 resp.
Proof.
  unfold errorhandler.
  destruct (code =? 404); [discriminate |].
  destruct (code =? 422); [discriminate |].
  destruct (code =? 400); discriminate.
Qed.

(** When [get_json] raises, nothing of the view runs: the answer is that
    of the error handler, and the database is as it was. *)
Lemma dispatch_rejected (page : query_arg) (code : Z)
    (k : value -> M response) (db : database) :
  dispatch
    (bind (request_get_json {| args_page := page;
                               get_json := Rejected code |}) k) db
  = (errorhandler code, db).
Proof. reflexivity. Qed.

(** ** Slices *)

Lemma adjust_index_bounds (len i : Z) :
  0 <= len -> 0 <= adjust_index len i <= len.
Proof.
  intros Hlen. unfold adjust_index.
  destruct (i <? 0) eqn:Hi.
  - apply Z.ltb_lt in Hi. lia.
  - apply Z.ltb_ge in Hi. lia.
Qed.

(** With bounds that are not negative a slice is "drop [start], keep
    [stop - start]". *)
Lemma slice_from_start {A} (l : list A) (start stop : Z) :
  0 <= start -> 0 <= stop ->
  slice l start stop =
  firstn (Z.to_nat (stop - start)) (skipn (Z.to_nat start) l).
Proof.
  intros Hs He. unfold slice, adjust_index.
  assert (Hs0 : (start <? 0) = false) by (apply Z.ltb_ge; lia).
  assert (He0 : (stop <? 0) = false) by (apply Z.ltb_ge; lia).
  rewrite Hs0, He0.
  set (len := Z.of_nat (List.length l)).
  destruct (Z.min start len <? Z.min stop len) eqn:Hlt.
  - apply Z.ltb_lt in Hlt.
    assert (Hsl : start < len) by lia.
    rewrite (Z.min_l start len) by lia.
    destruct (Z.le_gt_cases stop len) as [Hle | Hgt].
    + rewrite (Z.min_l stop len) by lia. reflexivity.
    + rewrite (Z.min_r stop len) by lia.
      rewrite !firstn_all2; try reflexivity;
        rewrite length_skipn; subst len; lia.
  - apply Z.ltb_ge in Hlt.
    destruct (Z.le_gt_cases len start) as [Hge | Hsl].
    + rewrite skipn_all2 by (subst len; lia).
      now rewrite firstn_nil.
    + replace (Z.to_nat (stop - start)) with 0%nat by lia.
      reflexivity.
Qed.

(** A slice is empty exactly when its adjusted bounds leave no room. *)
Lemma slice_nil_iff {A} (l : list A) (start stop : Z) :
  slice l start stop = [] <->
  adjust_index (Z.of_nat (List.length l)) stop
  <= adjust_index (Z.of_nat (List.length l)) start.
Proof.
  unfold slice.
  pose proof (adjust_index_bounds (Z.of_nat (List.length l)) start
                ltac:(lia)) as Hlo.
  pose proof (adjust_index_bounds (Z.of_nat (List.length l)) stop
                ltac:(lia)) as Hhi.
  set (lo := adjust_index _ start) in *.
  set (hi := adjust_index _ stop) in *.
  destruct (lo <? hi) eqn:Hlt.
  - apply Z.ltb_lt in Hlt. split; [| lia].
    intros Hnil. apply (f_equal (@List.length A)) in Hnil.
    rewrite length_firstn, length_skipn in Hnil. simpl in Hnil. lia.
  - apply Z.ltb_ge in Hlt. split; [lia | reflexivity].
Qed.

(** ** Ordering by id *)

Definition id_le (a b : Question.t) : Prop := Question.id a <= Question.id b.

Lemma insert_by_id_perm q l : Permutation (insert_by_id q l) (q :: l).
Proof.
  induction l as [| r l IH]; simpl.
  - apply Permutation_refl.
  - destruct (Question.id q <=? Question.id r).
    + apply Permutation_refl.
    + eapply perm_trans; [apply perm_skip, IH | apply perm_swap].
Qed.

Lemma order_by_id_perm l : Permutation (order_by_id l) l.
Proof.
  induction l as [| q l IH]; simpl.
  - apply perm_nil.
  - eapply perm_trans; [apply insert_by_id_perm | now apply perm_skip].
Qed.

Lemma order_by_id_length l :
  List.length (order_by_id l) = List.length l.
Proof. apply Permutation_length, order_by_id_perm. Qed.

Lemma insert_by_id_hd q a l :
  HdRel id_le a l -> id_le a q -> HdRel id_le a (insert_by_id q l).
Proof.
  intros Hl Haq. destruct l as [| r l]; simpl.
  - now constructor.
  - destruct (Question.id q <=? Question.id r);
      constructor; [assumption | now inversion Hl].
Qed.

Lemma insert_by_id_sorted q l :
  Sorted id_le l -> Sorted id_le (insert_by_id q l).
Proof.
  induction 1 as [| r l Hs IH Hhd]; simpl.
  - repeat constructor.
  - destruct (Question.id q <=? Question.id r) eqn:Hle.
    + apply Z.leb_le in Hle. repeat constructor; assumption.
    + apply Z.leb_gt in Hle. constructor; [exact IH |].
      apply insert_by_id_hd; [assumption | unfold id_le; lia].
Qed.

Lemma order_by_id_sorted l : Sorted id_le (order_by_id l).
Proof.
  induction l as [| q l IH]; simpl.
  - constructor.
  - now apply insert_by_id_sorted.
Qed.

(** ** Pagination *)

Lemma paginate_questions_nil_iff (r : request) (selection : list Question.t) :
  let len := Z.of_nat (List.length selection) in
  let start := (args_get_page r - 1) * 10 in
  paginate_questions r selection = [] <->
  adjust_index len (start + 10) <= adjust_index len start.
Proof.
  unfold paginate_questions, QUESTIONS_PER_PAGE.
  rewrite slice_nil_iff, length_map. reflexivity.
Qed.

(** C6. For a page number [N] that is at least 1 (the number given in the
    query string, or 1 when the parameter is absent), the helper returns
    the formatted questions at the indices [(N-1)*10 <= k < N*10]: its
    [i]-th element, for [i < 10], is the element of index
    [(N-1)*10 + i] of the formatted list, and it has no tenth element. *)
Theorem paginate_questions_page
    (body : value) (arg : query_arg) (selection : list Question.t) (N : Z) :
  arg = IntArg N \/ (arg = NoArg /\ N = 1) ->
  1 <= N ->
  forall i : nat,
    nth_error
      (paginate_questions {| args_page := arg; get_json := body |} selection)
      i
    = if Z.of_nat i <? 10
      then nth_error (List.map Question.format selection)
             (Z.to_nat ((N - 1) * 10) + i)
      else None.
Proof.
  intros Harg HN i.
  assert (Hpage : args_get_page {| args_page := arg; get_json := body |} = N).
  { unfold args_get_page; simpl.
    destruct Harg as [-> | [-> ->]]; reflexivity. }
  unfold paginate_questions, QUESTIONS_PER_PAGE. rewrite Hpage.
  rewrite slice_from_start by lia.
  replace ((N - 1) * 10 + 10 - (N - 1) * 10) with 10 by lia.
  rewrite nth_error_firstn, nth_error_skipn.
  change (Z.to_nat 10) with 10%nat.
  destruct (Z.of_nat i <? 10) eqn:Hi.
  - apply Z.ltb_lt in Hi.
    assert (Hlt : (i <? 10)%nat = true) by (apply Nat.ltb_lt; lia).
    now rewrite Hlt.
  - apply Z.ltb_ge in Hi.
    assert (Hge : (i <? 10)%nat = false) by (apply Nat.ltb_ge; lia).
    now rewrite Hge.
Qed.

Lemma paginate_questions_page_witness :
  nth_error
    (paginate_questions (get_request (IntArg 2)) (questions eleven_db)) 0
  = nth_error (List.map Question.format (questions eleven_db)) 10.
Proof.
  exact (paginate_questions_page VNone (IntArg 2) (questions eleven_db) 2
           (or_introl eq_refl) ltac:(lia) 0%nat).
Defined.

(** What [GET /questions] answers, in one equation. *)
Lemma get_questions_dispatch (r : request) (db : database) :
  dispatch (get_questions r) db =
  (match paginate_questions r (order_by_id (questions db)) with
   | [] => not_found
   | _ :: _ =>
       Json 200
         (VDict
            [ (KStr "success", VBool true);
              (KStr "questions",
                VList (paginate_questions r (order_by_id (questions db))));
              (KStr "total_questions",
                VInt (Z.of_nat (List.length (questions db))));
              (KStr "categories", categories_dict (categories db));
              (KStr "current_category", VNone) ])
   end, db).
Proof.
  unfold dispatch, get_questions, bind, Question_query_order_by_id_all,
    Category_query_all, abort, raise, ret, jsonify; simpl.
  destruct (paginate_questions r (order_by_id (questions db))) eqn:Hp; simpl.
  - reflexivity.
  - now rewrite order_by_id_length.
Qed.

(** *** Pages that are not positive *)

(** Page -1 of eleven questions: the bounds -20 and -10 count from the end
    of the list, and the slice is its first question. *)
Lemma negative_page_of_eleven :
  paginate_questions (get_request (IntArg (-1)))
    (order_by_id (questions eleven_db))
  = [ Question.format (sample_question 1 "abc" "1") ]
  /\ status_code
       (fst (dispatch (get_questions (get_request (IntArg (-1)))) eleven_db))
     = 200.
Proof. split; reflexivity. Qed.

(** C2 as stated fails: a page that is zero or negative does not always
    give an empty slice and a 404. *)
Lemma nonpositive_page_not_always_empty :
  ~ (forall (r : request) (db : database),
        args_get_page r <= 0 ->
        paginate_questions r (order_by_id (questions db)) = []
        /\ fst (dispatch (get_questions r) db) = not_found).
Proof.
  intros H.
  destruct (H (get_request (IntArg (-1))) eleven_db) as [Hnil _].
  - unfold args_get_page, get_request; simpl. lia.
  - destruct negative_page_of_eleven as [Hrows _].
    rewrite Hrows in Hnil. discriminate Hnil.
Qed.

(** C2, amended. Page 0 gives no rows and a 404 for every database.  A
    negative page [-k] gives no rows and a 404 exactly when there are at
    most [10 * k] questions; when there are more, its bounds count from
    the end of the list, the slice has rows and the answer is a 200. *)
Theorem nonpositive_page_rows (r : request) (db : database) :
  args_get_page r <= 0 ->
  let n := Z.of_nat (List.length (questions db)) in
  let rows := paginate_questions r (order_by_id (questions db)) in
  (args_get_page r = 0 \/ n <= -10 * args_get_page r ->
   rows = [] /\ dispatch (get_questions r) db = (not_found, db))
  /\ (args_get_page r < 0 /\ -10 * args_get_page r < n ->
      rows <> []
      /\ status_code (fst (dispatch (get_questions r) db)) = 200).
Proof.
  intros Hpage. cbv zeta.
  pose proof (paginate_questions_nil_iff r (order_by_id (questions db)))
    as Hnil.
  cbv zeta in Hnil. rewrite order_by_id_length in Hnil.
  rewrite get_questions_dispatch.
  unfold adjust_index in Hnil.
  set (n := Z.of_nat (List.length (questions db))) in *.
  set (p := args_get_page r) in *.
  assert (Hstart : ((p - 1) * 10 <? 0) = true) by (apply Z.ltb_lt; lia).
  rewrite Hstart in Hnil.
  split.
  - intros Hcase.
    assert (Hrows : paginate_questions r (order_by_id (questions db)) = []).
    { apply Hnil.
      destruct ((p - 1) * 10 + 10 <? 0) eqn:Hstop.
      - apply Z.ltb_lt in Hstop. lia.
      - apply Z.ltb_ge in Hstop. lia. }
    now rewrite Hrows.
  - intros [Hneg Hmore].
    assert (Hrows : paginate_questions r (order_by_id (questions db)) <> []).
    { intros Hrows. apply Hnil in Hrows.
      assert (Hstop : ((p - 1) * 10 + 10 <? 0) = true)
        by (apply Z.ltb_lt; lia).
      rewrite Hstop in Hrows. lia. }
    split; [exact Hrows |].
    destruct (paginate_questions r (order_by_id (questions db)));
      [congruence | reflexivity].
Qed.

Lemma nonpositive_page_rows_witness :
  dispatch (get_questions (get_request (IntArg 0))) eleven_db
  = (not_found, eleven_db)
  /\ status_code
       (fst (dispatch (get_questions (get_request (IntArg (-1)))) eleven_db))
     = 200.
Proof.
  split.
  - refine (proj2 (proj1 (nonpositive_page_rows (get_request (IntArg 0))
                            eleven_db _) _)).
    + unfold args_get_page, get_request; simpl; lia.
    + left. reflexivity.
  - refine (proj2 (proj2 (nonpositive_page_rows (get_request (IntArg (-1)))
                            eleven_db _) _)).
    + unfold args_get_page, get_request; simpl; lia.
    + unfold args_get_page, get_request, eleven_db; simpl; lia.
Defined.

(** ** Deleting a question *)

Lemma find_none_iff (question_id : Z) (l : list Question.t) :
  List.find (fun q => Question.id q =? question_id) l = None <->
  (forall q, In q l -> Question.id q <> question_id).
Proof.
  induction l as [| r l IH]; simpl.
  - split; [intros _ q [] | reflexivity].
  - destruct (Question.id r =? question_id) eqn:Hr.
    + apply Z.eqb_eq in Hr. split; [discriminate |].
      intros H. exfalso. apply (H r); [now left | exact Hr].
    + apply Z.eqb_neq in Hr. rewrite IH. split.
      * intros H q [<- | Hq]; [exact Hr | now apply H].
      * intros H q Hq. apply H. now right.
Qed.

Lemma find_filter_out (question_id : Z) (l : list Question.t) :
  List.find (fun q => Question.id q =? question_id)
    (List.filter (fun q => negb (Question.id q =? question_id)) l) = None.
Proof.
  apply find_none_iff. intros q Hq.
  apply filter_In in Hq. destruct Hq as [_ Hq].
  apply negb_true_iff, Z.eqb_neq in Hq. exact Hq.
Qed.

(** C5. [DELETE /questions/{id}] answers 404 when no question has that id.
    When one has, and the commit goes through, the question is gone from
    the committed table (a lookup by that id finds nothing) and the
    answer carries the id; when the commit raises, the answer is 422 and
    the database is as it was. *)
Theorem delete_question_outcome
    (env : environment) (question_id : Z) (db : database) :
  (List.find (fun q => Question.id q =? question_id) (questions db) = None
   <-> forall q, In q (questions db) -> Question.id q <> question_id)
  /\ match List.find (fun q => Question.id q =? question_id)
             (questions db) with
     | None =>
         dispatch (delete_question env question_id) db = (not_found, db)
     | Some _ =>
         if commit_raises env then
           dispatch (delete_question env question_id) db
           = (unprocessable_entity, db)
         else
           let db' :=
             {| questions :=
                  List.filter (fun q => negb (Question.id q =? question_id))
                    (questions db);
                categories := categories db;
                next_id := next_id db |} in
           dispatch (delete_question env question_id) db
           = (Json 200 (VDict [ (KStr "success", VBool true);
                                (KStr "deleted", VInt question_id) ]), db')
           /\ List.find (fun q => Question.id q =? question_id)
                (questions db') = None
     end.
Proof.
  split; [apply find_none_iff |].
  unfold dispatch, delete_question, bind, session_get; simpl.
  destruct (List.find (fun q => Question.id q =? question_id) (questions db))
    as [question |] eqn:Hfind; [| reflexivity].
  apply find_some in Hfind. destruct Hfind as [_ Hid].
  apply Z.eqb_eq in Hid.
  unfold try_except, bind, session_delete, session_commit, session_rollback,
    abort, raise, ret, jsonify; simpl.
  destruct (commit_raises env); simpl.
  - reflexivity.
  - split; [| apply find_filter_out].
    rewrite (filter_ext _ (fun q => negb (Question.id q =? question_id)));
      [reflexivity |].
    intros q. rewrite Hid, orb_false_r. reflexivity.
Qed.

(** ** Creating a question *)

(** [data.get(name)] on the body's fields, and whether the field is there
    with a truthy value. *)
Definition field (fields : list (key * value)) (name : string) : value :=
  match lookup (KStr name) fields with
  | Some v => v
  | None => VNone
  end.

Definition present_and_truthy (fields : list (key * value)) (name : string)
  : bool :=
  match lookup (KStr name) fields with
  | Some v => truthy v
  | None => false
  end.

Lemma truthy_field fields name :
  truthy (field fields name) = present_and_truthy fields name.
Proof.
  unfold field, present_and_truthy.
  now destruct (lookup (KStr name) fields).
Qed.

Lemma truthy_and_ a b : truthy (and_ a b) = (truthy a && truthy b)%bool.
Proof. unfold and_. now destruct (truthy a) eqn:Ha; simpl. Qed.

Lemma get_field fields name :
  get (VDict fields) name VNone = Return (field fields name).
Proof.
  unfold get, field. now destruct (lookup (KStr name) fields).
Qed.

Lemma Question_insert_return env q a c d s created s' :
  Question_insert env q a c d s = (Return created, s') ->
  exists row,
    questions (committed s') = questions (committed s) ++ [row]
    /\ Question.id row = created
    /\ bind_text env q = Some (Question.question row)
    /\ bind_text env a = Some (Question.answer row)
    /\ bind_text env c = Some (Question.category row)
    /\ bind_integer env d = Some (Question.difficulty row)
    /\ categories (committed s') = categories (committed s).
Proof.
  unfold Question_insert.
  destruct (bind_text env q) as [q' |]; [| discriminate].
  destruct (bind_text env a) as [a' |]; [| discriminate].
  destruct (bind_text env c) as [c' |]; [| discriminate].
  destruct (bind_integer env d) as [d' |]; [| discriminate].
  destruct (commit_raises env); [discriminate |].
  intros H. injection H as <- <-. simpl.
  eexists. repeat split; reflexivity.
Qed.

Lemma Question_insert_raise env q a c d s e s' :
  Question_insert env q a c d s = (Raise e, s') -> s' = s.
Proof.
  unfold Question_insert.
  destruct (bind_text env q); [| intros H; now injection H].
  destruct (bind_text env a); [| intros H; now injection H].
  destruct (bind_text env c); [| intros H; now injection H].
  destruct (bind_integer env d); [| intros H; now injection H].
  destruct (commit_raises env); [intros H; now injection H | discriminate].
Qed.

(** What [POST /questions] answers for a body that is a JSON object. *)
Lemma create_question_dispatch
    (env : environment) (page : query_arg) (fields : list (key * value))
    (db : database) :
  dispatch (create_question env {| args_page := page;
                                   get_json := VDict fields |}) db =
  if (present_and_truthy fields "question"
      && (present_and_truthy fields "answer"
          && (present_and_truthy fields "category"
              && present_and_truthy fields "difficulty")))%bool
  then
    match Question_insert env (field fields "question")
            (field fields "answer") (field fields "category")
            (field fields "difficulty")
            {| committed := db; pending_delete := [] |} with
    | (Return created, s') =>
        (Json 200 (VDict [ (KStr "success", VBool true);
                           (KStr "created", VInt created) ]), committed s')
    | (Raise _, _) => (unprocessable_entity, db)
    end
  else (unprocessable_entity, db).
Proof.
  unfold dispatch, create_question. rewrite bind_request_get_json.
  rewrite !get_field. unfold bind at 1 2 3 4, lift.
  rewrite !truthy_and_, !truthy_field.
  destruct (present_and_truthy fields "question"
            && (present_and_truthy fields "answer"
                && (present_and_truthy fields "category"
                    && present_and_truthy fields "difficulty")))%bool;
    simpl; [| reflexivity].
  unfold try_except, bind.
  destruct (Question_insert env (field fields "question")
              (field fields "answer") (field fields "category")
              (field fields "difficulty")
              {| committed := db; pending_delete := [] |})
    as [[created | e] s'] eqn:Hins; simpl.
  - reflexivity.
  - apply Question_insert_raise in Hins. now subst s'.
Qed.

(** C3. [POST /questions] succeeds exactly when the four fields are present
    and truthy and the insert does not fail; it then adds one row and
    answers with that row's id.  In every other case, and so when
    [difficulty] is 0, the answer is 422 and the database is as it was. *)
Theorem create_question_outcome
    (env : environment) (page : query_arg) (fields : list (key * value))
    (db : database) :
  let r := {| args_page := page; get_json := VDict fields |} in
  let complete :=
    (present_and_truthy fields "question"
     && (present_and_truthy fields "answer"
         && (present_and_truthy fields "category"
             && present_and_truthy fields "difficulty")))%bool in
  let inserted :=
    Question_insert env (field fields "question") (field fields "answer")
      (field fields "category") (field fields "difficulty")
      {| committed := db; pending_delete := [] |} in
  (status_code (fst (dispatch (create_question env r) db)) = 200
   <-> complete = true
       /\ exists created s', inserted = (Return created, s'))
  /\ (forall created s',
        complete = true -> inserted = (Return created, s') ->
        dispatch (create_question env r) db
        = (Json 200 (VDict [ (KStr "success", VBool true);
                             (KStr "created", VInt created) ]), committed s')
        /\ exists row,
             questions (committed s') = questions db ++ [row]
             /\ Question.id row = created)
  /\ (complete = false \/ (exists e s', inserted = (Raise e, s')) ->
      dispatch (create_question env r) db = (unprocessable_entity, db))
  /\ (lookup (KStr "difficulty") fields = Some (VInt 0) ->
      dispatch (create_question env r) db = (unprocessable_entity, db)).
Proof.
  cbv zeta. rewrite create_question_dispatch.
  set (complete := (present_and_truthy fields "question" && _)%bool).
  set (inserted := Question_insert _ _ _ _ _ _).
  split; [| split; [| split]].
  - destruct complete.
    + destruct inserted as [[created | e] s']; simpl.
      * split; [intros _; split; [reflexivity | now eauto] | reflexivity].
      * split; [discriminate |].
        intros [_ (created & s'' & H)]. discriminate H.
    + simpl. split; [discriminate | intros [H _]; discriminate H].
  - intros created s' Hc Hins. rewrite Hc, Hins. split; [reflexivity |].
    apply Question_insert_return in Hins.
    destruct Hins as (row & Hrows & Hid & _). now exists row.
  - intros [Hc | (e & s' & Hins)].
    + now rewrite Hc.
    + rewrite Hins. now destruct complete.
  - intros Hd.
    assert (Hc : complete = false).
    { subst complete. unfold present_and_truthy at 4. rewrite Hd. simpl.
      now rewrite !andb_false_r. }
    now rewrite Hc.
Qed.

Lemma create_question_outcome_witness :
  dispatch
    (create_question strict_env
       (post_request
          (VDict [ (KStr "question", VStr "Is zero easy?");
                   (KStr "answer", VStr "no");
                   (KStr "category", VStr "1");
                   (KStr "difficulty", VInt 0) ]))) small_db
  = (unprocessable_entity, small_db).
Proof.
  refine (proj2 (proj2 (proj2
    (create_question_outcome strict_env NoArg
       [ (KStr "question", VStr "Is zero easy?");
         (KStr "answer", VStr "no");
         (KStr "category", VStr "1");
         (KStr "difficulty", VInt 0) ] small_db))) _).
  reflexivity.
Defined.

(** ** Questions of a category *)

(** C9. [GET /categories/{id}/questions] answers with exactly the
    questions whose [category] is the decimal text of the requested id, in
    table order, with their number and the requested id as current
    category; when there is none it answers 404. *)
Theorem get_questions_by_category_outcome (category_id : Z) (db : database) :
  let matching :=
    List.filter
      (fun q => String.eqb (Question.category q) (str_int category_id))
      (questions db) in
  (forall q,
      In q matching <->
      In q (questions db) /\ Question.category q = str_int category_id)
  /\ dispatch (get_questions_by_category category_id) db =
     (match matching with
      | [] => not_found
      | _ :: _ =>
          Json 200
            (VDict
               [ (KStr "success", VBool true);
                 (KStr "questions",
                   VList (List.map Question.format matching));
                 (KStr "total_questions",
                   VInt (Z.of_nat (List.length matching)));
                 (KStr "current_category", VInt category_id) ])
      end, db).
Proof.
  cbv zeta. split.
  - intros q. rewrite filter_In, String.eqb_eq. reflexivity.
  - unfold dispatch, get_questions_by_category, bind, Question_query_filter;
      simpl.
    destruct (List.filter _ (questions db)); reflexivity.
Qed.

(** ** The category mapping *)

Lemma lookup_setitem_eq k v d : lookup k (setitem k v d) = Some v.
Proof.
  induction d as [| [k' v'] d IH]; simpl.
  - assert (H : key_eqb k k = true) by now apply key_eqb_eq.
    now rewrite H.
  - destruct (key_eqb k k') eqn:Hk; simpl; rewrite Hk; [reflexivity | exact IH].
Qed.

Lemma lookup_setitem_ne k k' v d :
  k <> k' -> lookup k' (setitem k v d) = lookup k' d.
Proof.
  intros Hne. induction d as [| [k'' v''] d IH]; simpl.
  - destruct (key_eqb k' k) eqn:Hk; [| reflexivity].
    apply key_eqb_eq in Hk. congruence.
  - destruct (key_eqb k k'') eqn:Hk; simpl.
    + apply key_eqb_eq in Hk. subst k''.
      destruct (key_eqb k' k) eqn:Hk'; [| reflexivity].
      apply key_eqb_eq in Hk'. congruence.
    + now rewrite IH.
Qed.

Lemma find_append {A} (f : A -> bool) (l1 l2 : list A) :
  List.find f (l1 ++ l2) =
  match List.find f l1 with
  | Some x => Some x
  | None => List.find f l2
  end.
Proof.
  induction l1 as [| x l1 IH]; simpl; [reflexivity |].
  destruct (f x); [reflexivity | exact IH].
Qed.

Lemma lookup_fold_setitem (cats : list Category.t) (d : list (key * value))
    (k : Z) :
  lookup (KInt k)
    (fold_left
       (fun d c => setitem (KInt (Category.id c)) (VStr (Category.type c)) d)
       cats d)
  = match List.find (fun c => Category.id c =? k) (rev cats) with
    | Some c => Some (VStr (Category.type c))
    | None => lookup (KInt k) d
    end.
Proof.
  revert d. induction cats as [| c cats IH]; intros d; simpl.
  - reflexivity.
  - rewrite IH, find_append.
    destruct (List.find (fun c0 => Category.id c0 =? k) (rev cats));
      [reflexivity |].
    simpl. destruct (Category.id c =? k) eqn:Hc.
    + apply Z.eqb_eq in Hc. subst k. apply lookup_setitem_eq.
    + apply Z.eqb_neq in Hc. apply lookup_setitem_ne. congruence.
Qed.

(** The mapping has an entry for every category id and only for those; it
    gives the type of the category of that id (of the last one, should
    two rows share an id). *)
Lemma categories_dict_lookup (cats : list Category.t) (k : Z) :
  match categories_dict cats with
  | VDict d =>
      lookup (KInt k) d =
      option_map (fun c => VStr (Category.type c))
        (List.find (fun c => Category.id c =? k) (rev cats))
  | _ => False
  end.
Proof.
  unfold categories_dict. rewrite lookup_fold_setitem.
  now destruct (List.find _ (rev cats)).
Qed.

(** ** Searching *)

Lemma ilike_percent (p text : string) :
  Sql.ilike (String "%" p) text =
  (Sql.ilike p text
   || match text with
      | EmptyString => false
      | String _ text' => Sql.ilike (String "%" p) text'
      end)%bool.
Proof. destruct text; reflexivity. Qed.

Lemma ilike_any_run (text : string) : Sql.ilike "%" text = true.
Proof.
  induction text as [| c text IH].
  - reflexivity.
  - rewrite ilike_percent. rewrite IH. apply orb_true_r.
Qed.

Lemma ilike_any_run_twice (text : string) : Sql.ilike "%%" text = true.
Proof. rewrite ilike_percent, ilike_any_run. reflexivity. Qed.

(** The search term the handler reads from a body that is a JSON object. *)
Definition search_term_of (fields : list (key * value)) : value :=
  match lookup (KStr "searchTerm") fields with
  | Some v => v
  | None => VStr ""
  end.

(** What [POST /questions/search] answers for a body that is a JSON
    object: always a 200, with the rows the pattern matches. *)
Lemma search_questions_dispatch
    (env : environment) (page : query_arg) (fields : list (key * value))
    (db : database) :
  let results :=
    List.filter
      (fun q =>
         Sql.ilike ("%" ++ str (repr env) (search_term_of fields) ++ "%")
           (Question.question q))
      (questions db) in
  dispatch (search_questions env {| args_page := page;
                                    get_json := VDict fields |}) db =
  (Json 200
     (VDict
        [ (KStr "success", VBool true);
          (KStr "questions", VList (List.map Question.format results));
          (KStr "total_questions", VInt (Z.of_nat (List.length results))) ]),
   db).
Proof.
  unfold dispatch, search_questions, search_term_of.
  rewrite bind_request_get_json. cbv zeta. unfold get.
  destruct (lookup (KStr "searchTerm") fields); reflexivity.
Qed.

(** C10. With [searchTerm] absent from the body, or the empty string, the
    search answers 200 with every question of the table and their
    number. *)
Theorem search_questions_empty_term
    (env : environment) (page : query_arg) (fields : list (key * value))
    (db : database) :
  lookup (KStr "searchTerm") fields = None
  \/ lookup (KStr "searchTerm") fields = Some (VStr "") ->
  dispatch (search_questions env {| args_page := page;
                                    get_json := VDict fields |}) db =
  (Json 200
     (VDict
        [ (KStr "success", VBool true);
          (KStr "questions",
            VList (List.map Question.format (questions db)));
          (KStr "total_questions",
            VInt (Z.of_nat (List.length (questions db)))) ]),
   db).
Proof.
  intros Hterm. rewrite search_questions_dispatch.
  assert (Hempty : search_term_of fields = VStr "").
  { unfold search_term_of. destruct Hterm as [-> | ->]; reflexivity. }
  rewrite Hempty. simpl str. change ("%" ++ "" ++ "%")%string with "%%".
  rewrite forallb_filter_id; [reflexivity |].
  apply forallb_forall. intros q _. apply ilike_any_run_twice.
Qed.

Lemma search_questions_empty_term_witness :
  dispatch (search_questions strict_env (post_request (VDict []))) small_db
  = (Json 200
       (VDict
          [ (KStr "success", VBool true);
            (KStr "questions",
              VList (List.map Question.format (questions small_db)));
            (KStr "total_questions", VInt 3) ]),
     small_db)
  /\ dispatch
       (search_questions strict_env
          (post_request (VDict [ (KStr "searchTerm", VStr "") ]))) small_db
     = (Json 200
          (VDict
             [ (KStr "success", VBool true);
               (KStr "questions",
                 VList (List.map Question.format (questions small_db)));
               (KStr "total_questions", VInt 3) ]),
        small_db).
Proof.
  split.
  - exact (search_questions_empty_term strict_env NoArg [] small_db
             (or_introl eq_refl)).
  - exact (search_questions_empty_term strict_env NoArg
             [ (KStr "searchTerm", VStr "") ] small_db (or_intror eq_refl)).
Defined.

(** *** Search terms with and without pattern characters *)

(** The spec's words for the search: the question's text contains the
    term as a substring, up to case.  [ci_prefix] and [ci_contains] say
    that directly, without patterns. *)
Fixpoint ci_prefix (term text : string) : bool :=
  match term, text with
  | EmptyString, _ => true
  | String _ _, EmptyString => false
  | String c term', String d text' =>
      (Sql.ci_eqb c d && ci_prefix term' text')%bool
  end.

Fixpoint ci_contains (term text : string) : bool :=
  (ci_prefix term text
   || match text with
      | EmptyString => false
      | String _ text' => ci_contains term text'
      end)%bool.

(** The characters [ILIKE] reads as more than themselves. *)
Definition is_meta (c : ascii) : bool :=
  (Ascii.eqb c "%" || Ascii.eqb c "_" || Ascii.eqb c "\")%bool.

Fixpoint plain (term : string) : bool :=
  match term with
  | EmptyString => true
  | String c term' => (negb (is_meta c) && plain term')%bool
  end.

Lemma ilike_plain_char (c : ascii) (p text : string) :
  is_meta c = false ->
  Sql.ilike (String c p) text =
  match text with
  | EmptyString => false
  | String d text' => (Sql.ci_eqb c d && Sql.ilike p text')%bool
  end.
Proof.
  unfold is_meta. intros H.
  apply orb_false_elim in H. destruct H as [H Hbackslash].
  apply orb_false_elim in H. destruct H as [Hpercent Hunderscore].
  destruct text; simpl; rewrite Hpercent, Hunderscore, Hbackslash;
    reflexivity.
Qed.

Lemma ilike_plain_prefix (term text : string) :
  plain term = true ->
  Sql.ilike (term ++ "%") text = ci_prefix term text.
Proof.
  revert text. induction term as [| c term IH]; intros text Hplain.
  - simpl append. rewrite ilike_any_run. now destruct text.
  - simpl in Hplain. apply andb_true_iff in Hplain.
    destruct Hplain as [Hc Hterm]. apply negb_true_iff in Hc.
    change (String c term ++ "%")%string with (String c (term ++ "%")).
    rewrite ilike_plain_char by exact Hc.
    destruct text as [| d text]; [reflexivity |].
    simpl ci_prefix. now rewrite IH.
Qed.

(** For a term without pattern characters the query is the substring
    search of the spec. *)
Lemma ilike_plain_contains (term text : string) :
  plain term = true ->
  Sql.ilike ("%" ++ term ++ "%") text = ci_contains term text.
Proof.
  intros Hplain.
  change ("%" ++ term ++ "%")%string with (String "%" (term ++ "%")).
  induction text as [| d text IH].
  - rewrite ilike_percent, ilike_plain_prefix by exact Hplain.
    reflexivity.
  - rewrite ilike_percent, ilike_plain_prefix, IH by exact Hplain.
    reflexivity.
Qed.

(** X21. For a string term without the pattern characters [%], [_] and
    backslash, [POST /questions/search] answers with exactly the
    questions whose text contains the term up to case, in table order,
    and their number. *)
Lemma search_questions_plain_term
    (env : environment) (page : query_arg) (fields : list (key * value))
    (db : database) (term : string) :
  lookup (KStr "searchTerm") fields = Some (VStr term) ->
  plain term = true ->
  let results :=
    List.filter (fun q => ci_contains term (Question.question q))
      (questions db) in
  dispatch (search_questions env {| args_page := page;
                                    get_json := VDict fields |}) db =
  (Json 200
     (VDict
        [ (KStr "success", VBool true);
          (KStr "questions", VList (List.map Question.format results));
          (KStr "total_questions", VInt (Z.of_nat (List.length results))) ]),
   db).
Proof.
  intros Hterm Hplain. cbv zeta. rewrite search_questions_dispatch.
  unfold search_term_of. rewrite Hterm. simpl str.
  rewrite (filter_ext _ (fun q => ci_contains term (Question.question q)));
    [reflexivity |].
  intros q. now apply ilike_plain_contains.
Qed.

(** C8, on the code. The term [_] is read as a pattern: the search returns
    the three questions of [small_db], none of which contains an
    underscore. *)
Theorem search_questions_underscore :
  let r := post_request (VDict [ (KStr "searchTerm", VStr "_") ]) in
  fst (dispatch (search_questions strict_env r) small_db)
  = Json 200
      (VDict
         [ (KStr "success", VBool true);
           (KStr "questions",
             VList (List.map Question.format (questions small_db)));
           (KStr "total_questions", VInt 3) ])
  /\ List.filter (fun q => ci_contains "_" (Question.question q))
       (questions small_db) = [].
Proof. split; reflexivity. Qed.

(** ** The quiz *)

(** What the handler reads from a body that is a JSON object. *)
Definition previous_questions_of (fields : list (key * value)) : value :=
  match lookup (KStr "previous_questions") fields with
  | Some v => v
  | None => VList []
  end.

(** The answer for a list of candidates: a random one of them, or null. *)
Definition quiz_response (env : environment) (candidates : list Question.t)
  : response :=
  Json 200
    (VDict
       [ (KStr "success", VBool true);
         (KStr "question",
           match candidates with
           | first :: rest => Question.format (random_choice env first rest)
           | [] => VNone
           end) ]).

Lemma random_choice_In {A} (env : environment) (first : A) (rest : list A) :
  In (random_choice env first rest) (first :: rest).
Proof.
  unfold random_choice. apply nth_In.
  change (List.length (first :: rest)) with (S (List.length rest)).
  apply Nat.mod_upper_bound. discriminate.
Qed.

Lemma bind_elements_ints (env : environment) (ids : list Z) :
  bind_elements env (List.map VInt ids) = Some (List.map Some ids).
Proof.
  induction ids as [| z ids IH]; simpl; [reflexivity | now rewrite IH].
Qed.

Lemma not_in_ints (ids : list Z) (x : Z) :
  Sql.not_in (List.map Some ids) x = negb (existsb (Z.eqb x) ids).
Proof.
  unfold Sql.not_in.
  assert (Hall : forallb (fun e : option Z =>
                            match e with Some _ => true | None => false end)
                   (List.map Some ids) = true).
  { induction ids as [| z ids IH]; simpl; [reflexivity | exact IH]. }
  rewrite Hall. clear Hall. simpl. f_equal.
  induction ids as [| z ids IH]; simpl; [reflexivity |].
  now rewrite IH.
Qed.

(** An id that is in the list never passes [NOT IN], whatever else the
    list holds. *)
Lemma bind_elements_excludes (env : environment) (l : list value)
    (es : list (option Z)) (x : Z) :
  bind_elements env l = Some es -> In (VInt x) l -> Sql.not_in es x = false.
Proof.
  intros Hbind Hin. unfold Sql.not_in.
  apply andb_false_iff. right. apply negb_false_iff.
  revert es Hbind. induction l as [| v l IH]; intros es Hbind.
  - destruct Hin.
  - simpl in Hbind.
    destruct (bind_element env v) as [e |] eqn:He; [| discriminate].
    destruct (bind_elements env l) as [es' |]; [| discriminate].
    injection Hbind as <-. simpl.
    destruct Hin as [-> | Hin].
    + simpl in He. injection He as <-. now rewrite Z.eqb_refl.
    + rewrite (IH Hin es' eq_refl). apply orb_true_r.
Qed.

Lemma filter_none {A} (f : A -> bool) (l : list A) :
  (forall x, In x l -> f x = false) -> List.filter f l = [].
Proof.
  induction l as [| x l IH]; intros H; simpl; [reflexivity |].
  rewrite (H x) by now left.
  apply IH. intros y Hy. apply H. now right.
Qed.

(** What [POST /quizzes] answers for a body that is a JSON object. *)
Lemma play_quiz_dispatch
    (env : environment) (page : query_arg) (fields : list (key * value))
    (db : database) :
  dispatch (play_quiz env {| args_page := page;
                             get_json := VDict fields |}) db =
  (match getitem (field fields "quiz_category") "id",
         notin_ env (previous_questions_of fields) with
   | Return category_id, Return not_previous =>
       quiz_response env
         (if truthy category_id then
            List.filter
              (fun q =>
                 (String.eqb (Question.category q)
                    (str (repr env) category_id)
                  && not_previous (Question.id q))%bool)
              (questions db)
          else
            List.filter (fun q => not_previous (Question.id q))
              (questions db))
   | _, _ => unprocessable_entity
   end, db).
Proof.
  unfold dispatch, play_quiz. rewrite bind_request_get_json.
  rewrite get_field.
  replace (get (VDict fields) "previous_questions" (VList []))
    with (Return (previous_questions_of fields))
    by (unfold get, previous_questions_of;
        now destruct (lookup (KStr "previous_questions") fields)).
  unfold bind at 1 2, lift at 1 2.
  unfold try_except, bind at 1, lift at 1.
  destruct (getitem (field fields "quiz_category") "id")
    as [category_id | e]; [| reflexivity].
  unfold bind at 1.
  destruct (truthy category_id);
    unfold bind, lift, Question_query_filter, ret, abort, raise,
      quiz_response, jsonify;
    destruct (notin_ env (previous_questions_of fields)); reflexivity.
Qed.

(** C4. For a body that is a JSON object: without [quiz_category], or with
    one that has no ['id'], the answer is 422 (the envelope of code 422,
    not 400).  With an ['id'] that is falsy, 0 for one, the candidates are
    all the questions that [previous_questions] leaves; with a truthy
    ['id'] they are those among them whose category is the text of the
    id.  What [previous_questions] leaves is what the query's [NOT IN]
    lets through: for a list of ids, the questions whose id is not in
    the list; for the empty dict, as for the empty list, all of them; a
    value the query cannot use is a 422 in both cases. *)
Theorem play_quiz_category
    (env : environment) (page : query_arg) (fields : list (key * value))
    (db : database) :
  let r := {| args_page := page; get_json := VDict fields |} in
  ((lookup (KStr "quiz_category") fields = None
    \/ (exists d, lookup (KStr "quiz_category") fields = Some (VDict d)
                  /\ lookup (KStr "id") d = None)) ->
   dispatch (play_quiz env r) db = (unprocessable_entity, db)
   /\ status_code unprocessable_entity = 422)
  /\ (forall d category_id,
        lookup (KStr "quiz_category") fields = Some (VDict d) ->
        lookup (KStr "id") d = Some category_id ->
        dispatch (play_quiz env r) db =
        (match notin_ env (previous_questions_of fields) with
         | Raise _ => unprocessable_entity
         | Return not_previous =>
             if truthy category_id then
               quiz_response env
                 (List.filter
                    (fun q =>
                       (String.eqb (Question.category q)
                          (str (repr env) category_id)
                        && not_previous (Question.id q))%bool)
                    (questions db))
             else
               quiz_response env
                 (List.filter (fun q => not_previous (Question.id q))
                    (questions db))
         end, db))
  /\ (forall d category_id ids,
        lookup (KStr "quiz_category") fields = Some (VDict d) ->
        lookup (KStr "id") d = Some category_id ->
        previous_questions_of fields = VList (List.map VInt ids)
        \/ (previous_questions_of fields = VDict [] /\ ids = []) ->
        dispatch (play_quiz env r) db =
        (if truthy category_id then
           quiz_response env
             (List.filter
                (fun q =>
                   (String.eqb (Question.category q)
                      (str (repr env) category_id)
                    && negb (existsb (Z.eqb (Question.id q)) ids))%bool)
                (questions db))
         else
           quiz_response env
             (List.filter
                (fun q => negb (existsb (Z.eqb (Question.id q)) ids))
                (questions db)), db))
  /\ truthy (VInt 0) = false.
Proof.
  cbv zeta. rewrite play_quiz_dispatch. unfold field.
  split; [| split; [| split; [| reflexivity]]].
  - intros [Hnone | (d & Hqc & Hid)].
    + rewrite Hnone. split; reflexivity.
    + rewrite Hqc. simpl. rewrite Hid. split; reflexivity.
  - intros d category_id Hqc Hid. rewrite Hqc. simpl. rewrite Hid.
    destruct (notin_ env (previous_questions_of fields)); [| reflexivity].
    now destruct (truthy category_id).
  - intros d category_id ids Hqc Hid Hprev. rewrite Hqc. simpl getitem.
    rewrite Hid.
    assert (Hnotin : notin_ env (previous_questions_of fields)
                     = Return (Sql.not_in (List.map Some ids))).
    { destruct Hprev as [-> | [-> ->]]; [| reflexivity].
      unfold notin_, iterable_items. now rewrite bind_elements_ints. }
    rewrite Hnotin.
    destruct (truthy category_id); do 2 f_equal; apply filter_ext;
      intros q; now rewrite not_in_ints.
Qed.

Lemma play_quiz_category_witness :
  dispatch (play_quiz strict_env (post_request (VDict []))) small_db
  = (unprocessable_entity, small_db)
  /\ dispatch
       (play_quiz strict_env
          (post_request
             (VDict [ (KStr "previous_questions", VList [VInt 3]);
                      (KStr "quiz_category",
                        VDict [ (KStr "id", VInt 0) ]) ]))) small_db
     = (Json 200
          (VDict
             [ (KStr "success", VBool true);
               (KStr "question",
                 Question.format
                   (sample_question 1 "What is the Capital of France?"
                      "1")) ]),
        small_db)
  /\ dispatch
       (play_quiz strict_env
          (post_request
             (VDict [ (KStr "previous_questions", VDict []);
                      (KStr "quiz_category",
                        VDict [ (KStr "id", VInt 0) ]) ]))) small_db
     = (Json 200
          (VDict
             [ (KStr "success", VBool true);
               (KStr "question",
                 Question.format
                   (sample_question 3 "Is the title short?" "2")) ]),
        small_db).
Proof.
  split; [| split].
  - exact (proj1 (proj1 (play_quiz_category strict_env NoArg [] small_db)
                    (or_introl eq_refl))).
  - exact (proj1 (proj2 (play_quiz_category strict_env NoArg
                           [ (KStr "previous_questions", VList [VInt 3]);
                             (KStr "quiz_category",
                               VDict [ (KStr "id", VInt 0) ]) ] small_db))
             [ (KStr "id", VInt 0) ] (VInt 0) eq_refl eq_refl).
  - exact (proj1 (proj2 (proj2 (play_quiz_category strict_env NoArg
                           [ (KStr "previous_questions", VDict []);
                             (KStr "quiz_category",
                               VDict [ (KStr "id", VInt 0) ]) ] small_db)))
             [ (KStr "id", VInt 0) ] (VInt 0) [] eq_refl eq_refl
             (or_intror (conj eq_refl eq_refl))).
Defined.

(** The questions a request is about: those of the chosen category, or all
    of them when the id is falsy. *)
Definition in_scope (env : environment) (category_id : value)
    (q : Question.t) : Prop :=
  if truthy category_id
  then Question.category q = str (repr env) category_id
  else True.

(** C1. A question that [POST /quizzes] returns with a 200 is a question of
    the table whose id is not an element of the list [previous_questions]
    (nor, when that is a dict, which the query takes as well, one of its
    keys).  And when [quiz_category] has an ['id'],
    [previous_questions] is a list of ids, and every question in scope has
    its id in that list, the answer is a 200 with [success] true and a
    null question. *)
Theorem play_quiz_excludes_previous
    (env : environment) (page : query_arg) (fields : list (key * value))
    (db : database) :
  let r := {| args_page := page; get_json := VDict fields |} in
  (forall body,
      fst (dispatch (play_quiz env r) db) = Json 200 body ->
      exists question,
        body = VDict [ (KStr "success", VBool true);
                       (KStr "question", question) ]
        /\ (question = VNone
            \/ exists q,
                 In q (questions db)
                 /\ question = Question.format q
                 /\ (forall previous,
                       previous_questions_of fields = VList previous ->
                       ~ In (VInt (Question.id q)) previous)
                 /\ (forall d,
                       previous_questions_of fields = VDict d ->
                       ~ In (KInt (Question.id q)) (List.map fst d))))
  /\ (forall d category_id ids,
        lookup (KStr "quiz_category") fields = Some (VDict d) ->
        lookup (KStr "id") d = Some category_id ->
        previous_questions_of fields = VList (List.map VInt ids) ->
        (forall q, In q (questions db) -> in_scope env category_id q ->
                   In (Question.id q) ids) ->
        dispatch (play_quiz env r) db
        = (Json 200 (VDict [ (KStr "success", VBool true);
                             (KStr "question", VNone) ]), db)).
Proof.
  cbv zeta. rewrite play_quiz_dispatch. split.
  - intros body. simpl fst.
    destruct (getitem (field fields "quiz_category") "id")
      as [category_id | e]; [| discriminate].
    unfold notin_.
    destruct (iterable_items (previous_questions_of fields))
      as [items |] eqn:Hitems; [| discriminate].
    destruct (bind_elements env items) as [es |] eqn:Hbind;
      [| discriminate].
    intros Hbody.
    assert (Hsel : forall (criterion : Question.t -> bool),
               (forall q, criterion q = true ->
                          Sql.not_in es (Question.id q) = true) ->
               quiz_response env (List.filter criterion (questions db))
               = Json 200 body ->
               exists question,
                 body = VDict [ (KStr "success", VBool true);
                                (KStr "question", question) ]
                 /\ (question = VNone
                     \/ exists q,
                          In q (questions db)
                          /\ question = Question.format q
                          /\ (forall previous,
                                previous_questions_of fields
                                = VList previous ->
                                ~ In (VInt (Question.id q)) previous)
                          /\ (forall d,
                                previous_questions_of fields = VDict d ->
                                ~ In (KInt (Question.id q))
                                    (List.map fst d)))).
    { intros criterion Hcrit Hresp. unfold quiz_response in Hresp.
      injection Hresp as <-.
      eexists. split; [reflexivity |].
      destruct (List.filter criterion (questions db))
        as [| first rest] eqn:Hfilter; [now left | right].
      exists (random_choice env first rest).
      pose proof (random_choice_In env first rest) as Hin.
      rewrite <- Hfilter in Hin. apply filter_In in Hin.
      destruct Hin as [Hin Hc]. apply Hcrit in Hc.
      assert (Hnot : ~ In (VInt (Question.id (random_choice env first rest)))
                       items).
      { intros Hprev.
        rewrite (bind_elements_excludes env items es _ Hbind Hprev) in Hc.
        discriminate Hc. }
      split; [exact Hin | split; [reflexivity |]]. split.
      - intros previous Hlist. rewrite Hlist in Hitems.
        injection Hitems as <-. exact Hnot.
      - intros d Hdict Hkey. rewrite Hdict in Hitems.
        injection Hitems as <-. apply Hnot.
        apply in_map_iff in Hkey. destruct Hkey as ([k v] & Hk & Hkv).
        simpl in Hk. subst k.
        apply in_map_iff. exists (KInt (Question.id
                                          (random_choice env first rest)), v).
        split; [reflexivity | exact Hkv]. }
    destruct (truthy category_id); apply Hsel in Hbody; try exact Hbody.
    + intros q Hq. now apply andb_true_iff in Hq.
    + intros q Hq. exact Hq.
  - intros d category_id ids Hqc Hid Hprev Hall.
    unfold field. rewrite Hqc. simpl getitem. rewrite Hid, Hprev.
    unfold notin_, iterable_items. rewrite bind_elements_ints.
    assert (Hnone : forall (criterion : Question.t -> bool),
               (forall q, In q (questions db) -> criterion q = true ->
                          in_scope env category_id q) ->
               List.filter
                 (fun q => (criterion q
                            && Sql.not_in (List.map Some ids)
                                 (Question.id q))%bool)
                 (questions db) = []).
    { intros criterion Hcrit.
      apply filter_none. intros q Hq.
      destruct (criterion q) eqn:Hc; [| reflexivity]. simpl.
      rewrite not_in_ints. apply negb_false_iff.
      apply existsb_exists. exists (Question.id q).
      split; [| apply Z.eqb_refl].
      apply Hall; [exact Hq | now apply Hcrit]. }
    unfold in_scope in Hnone.
    destruct (truthy category_id).
    + rewrite Hnone; [reflexivity |].
      intros q _ Hc. now apply String.eqb_eq.
    + rewrite (filter_ext _ (fun q => (true && Sql.not_in (List.map Some ids)
                                                 (Question.id q))%bool))
        by reflexivity.
      rewrite (Hnone (fun _ => true)); [reflexivity |].
      intros q _ _. exact I.
Qed.

Lemma play_quiz_excludes_previous_witness :
  dispatch
    (play_quiz strict_env
       (post_request
          (VDict [ (KStr "previous_questions", VList [VInt 3]);
                   (KStr "quiz_category", VDict [ (KStr "id", VInt 2) ]) ])))
    small_db
  = (Json 200 (VDict [ (KStr "success", VBool true);
                       (KStr "question", VNone) ]), small_db)
  /\ exists q,
       fst (dispatch
              (play_quiz strict_env
                 (post_request
                    (VDict [ (KStr "previous_questions", VList [VInt 1]);
                             (KStr "quiz_category",
                               VDict [ (KStr "id", VInt 1) ]) ])))
              small_db)
       = Json 200 (VDict [ (KStr "success", VBool true);
                           (KStr "question", Question.format q) ])
       /\ In q (questions small_db)
       /\ ~ In (VInt (Question.id q)) [VInt 1].
Proof.
  split.
  - refine (proj2 (play_quiz_excludes_previous strict_env NoArg
                     [ (KStr "previous_questions", VList [VInt 3]);
                       (KStr "quiz_category",
                         VDict [ (KStr "id", VInt 2) ]) ]
                     small_db)
              [ (KStr "id", VInt 2) ] (VInt 2) [3] eq_refl eq_refl eq_refl
              _).
    intros q Hq Hscope. simpl in Hq.
    destruct Hq as [<- | [<- | [<- | []]]];
      vm_compute in Hscope; try discriminate Hscope.
    left. reflexivity.
  - destruct (proj1 (play_quiz_excludes_previous strict_env NoArg
                       [ (KStr "previous_questions", VList [VInt 1]);
                         (KStr "quiz_category",
                           VDict [ (KStr "id", VInt 1) ]) ]
                       small_db)
                (VDict [ (KStr "success", VBool true);
                         (KStr "question",
                           Question.format (sample_question 2 "abc" "1")) ])
                eq_refl) as (question & Hbody & Hcases).
    injection Hbody as <-.
    destruct Hcases as [Hnull | (q & Hq & Hformat & Hlist & _)];
      [discriminate Hnull |].
    exists q. split; [now rewrite <- Hformat |].
    split; [exact Hq | exact (Hlist [VInt 1] eq_refl)].
Defined.

(** ** Bodies that are not JSON objects *)

(** X20. The three POST handlers call [data.get] before any [try]: on a
    body that is a list, a string, a number, a boolean or null, the
    [AttributeError] leaves the view and the answer is a 500, with the
    database as it was. *)
Lemma not_an_object_is_500
    (env : environment) (page : query_arg) (body : value) (db : database) :
  (forall fields, body <> VDict fields) ->
  let r := {| args_page := page; get_json := body |} in
  dispatch (create_question env r) db = (FrameworkError 500, db)
  /\ dispatch (search_questions env r) db = (FrameworkError 500, db)
  /\ dispatch (play_quiz env r) db = (FrameworkError 500, db).
Proof.
  intros Hbody. cbv zeta.
  unfold dispatch, create_question, search_questions, play_quiz;
    simpl get_json; cbv zeta.
  destruct body; try (repeat split; reflexivity).
  exfalso. now apply (Hbody d).
Qed.

(** ** Primary keys *)

(** What [DELETE /questions/{id}] answers, in one equation. *)
Lemma delete_question_dispatch
    (env : environment) (question_id : Z) (db : database) :
  dispatch (delete_question env question_id) db =
  match List.find (fun q => Question.id q =? question_id) (questions db) with
  | None => (not_found, db)
  | Some _ =>
      if commit_raises env then (unprocessable_entity, db)
      else
        (Json 200 (VDict [ (KStr "success", VBool true);
                           (KStr "deleted", VInt question_id) ]),
         {| questions :=
              List.filter (fun q => negb (Question.id q =? question_id))
                (questions db);
            categories := categories db;
            next_id := next_id db |})
  end.
Proof.
  unfold dispatch, delete_question, bind, session_get; simpl.
  destruct (List.find (fun q => Question.id q =? question_id) (questions db))
    as [question |] eqn:Hfind; [| reflexivity].
  apply find_some in Hfind. destruct Hfind as [_ Hid].
  apply Z.eqb_eq in Hid.
  unfold try_except, bind, session_delete, session_commit, session_rollback,
    abort, raise, ret, jsonify; simpl.
  destruct (commit_raises env); simpl; [reflexivity |].
  rewrite (filter_ext _ (fun q => negb (Question.id q =? question_id)));
    [reflexivity |].
  intros q. rewrite Hid, orb_false_r. reflexivity.
Qed.

(** Ids are distinct and below the sequence's next value. *)
Definition well_formed (db : database) : Prop :=
  NoDup (List.map Question.id (questions db))
  /\ Forall (fun q => Question.id q < next_id db) (questions db).

Lemma NoDup_map_filter {A B} (f : A -> B) (p : A -> bool) (l : list A) :
  NoDup (List.map f l) -> NoDup (List.map f (List.filter p l)).
Proof.
  induction l as [| x l IH]; simpl; intros H; [constructor |].
  inversion H as [| y l' Hnotin Hnodup]; subst.
  destruct (p x); simpl; [| now apply IH].
  constructor; [| now apply IH].
  intros Hin. apply Hnotin.
  apply in_map_iff in Hin. destruct Hin as (z & Hz & Hin).
  apply filter_In in Hin. apply in_map_iff. exists z. tauto.
Qed.

(** X8. Creating keeps the primary keys in order: if the ids are distinct
    and below the sequence's next value before [POST /questions], they
    are so after it, whatever the body and whether or not the insert goes
    through (an insert takes the next value, which no row has). *)
Lemma create_question_well_formed
    (env : environment) (r : request) (db : database) :
  well_formed db -> well_formed (snd (dispatch (create_question env r) db)).
Proof.
  intros [Hnodup Hbelow].
  destruct r as [page body].
  destruct body as [[| | | | | fields] | code];
    try (split; assumption).
  rewrite create_question_dispatch.
  destruct (_ && _)%bool; [| split; assumption].
  destruct (Question_insert _ _ _ _ _ _) as [[created | e] s'] eqn:Hins;
    [| split; assumption].
  unfold Question_insert in Hins.
  destruct (bind_text env (field fields "question")); [| discriminate].
  destruct (bind_text env (field fields "answer")); [| discriminate].
  destruct (bind_text env (field fields "category")); [| discriminate].
  destruct (bind_integer env (field fields "difficulty")); [| discriminate].
  destruct (commit_raises env); [discriminate |].
  injection Hins as <- <-. simpl. split; simpl.
  - rewrite map_app. simpl.
    apply NoDup_app; [exact Hnodup | repeat constructor; intros [] |].
    intros x Hx [<- | []].
    apply in_map_iff in Hx. destruct Hx as (q & Hq & Hin).
    rewrite Forall_forall in Hbelow. apply Hbelow in Hin. lia.
  - apply Forall_app. split.
    + eapply Forall_impl; [| exact Hbelow]. simpl. intros q Hq. lia.
    + repeat constructor. simpl. lia.
Qed.

(** X9. Deleting keeps the primary keys in order: distinct ids below the
    sequence's next value stay so after [DELETE /questions/{id}],
    whatever it answers. *)
Lemma delete_question_well_formed
    (env : environment) (question_id : Z) (db : database) :
  well_formed db ->
  well_formed (snd (dispatch (delete_question env question_id) db)).
Proof.
  intros [Hnodup Hbelow].
  rewrite delete_question_dispatch.
  destruct (List.find _ (questions db)); [| split; assumption].
  destruct (commit_raises env); [split; assumption |].
  split; simpl.
  - now apply NoDup_map_filter.
  - apply Forall_forall. intros q Hq. apply filter_In in Hq.
    rewrite Forall_forall in Hbelow. now apply Hbelow.
Qed.

(** ** The theorems at work on the sample data *)

Lemma delete_question_outcome_witness :
  dispatch (delete_question strict_env 2) small_db
  = (Json 200 (VDict [ (KStr "success", VBool true);
                       (KStr "deleted", VInt 2) ]),
     {| questions := [ sample_question 3 "Is the title short?" "2";
                       sample_question 1 "What is the Capital of France?"
                         "1" ];
        categories := [ science; art ];
        next_id := 4 |})
  /\ dispatch (delete_question failing_env 2) small_db
     = (unprocessable_entity, small_db)
  /\ dispatch (delete_question strict_env 7) small_db
     = (not_found, small_db).
Proof.
  split; [| split].
  - exact (proj1 (proj2 (delete_question_outcome strict_env 2 small_db))).
  - exact (proj2 (delete_question_outcome failing_env 2 small_db)).
  - exact (proj2 (delete_question_outcome strict_env 7 small_db)).
Defined.

Lemma get_questions_by_category_outcome_witness :
  dispatch (get_questions_by_category 2) small_db
  = (Json 200
       (VDict
          [ (KStr "success", VBool true);
            (KStr "questions",
              VList [ Question.format
                        (sample_question 3 "Is the title short?" "2") ]);
            (KStr "total_questions", VInt 1);
            (KStr "current_category", VInt 2) ]),
     small_db)
  /\ dispatch (get_questions_by_category 999) small_db
     = (not_found, small_db).
Proof.
  split.
  - exact (proj2 (get_questions_by_category_outcome 2 small_db)).
  - exact (proj2 (get_questions_by_category_outcome 999 small_db)).
Defined.

Lemma create_question_accepts_complete_body :
  dispatch
    (create_question strict_env
       (post_request
          (VDict [ (KStr "question", VStr "What is the capital of France?");
                   (KStr "answer", VStr "Paris");
                   (KStr "category", VStr "3");
                   (KStr "difficulty", VInt 1) ]))) small_db
  = (Json 200 (VDict [ (KStr "success", VBool true);
                       (KStr "created", VInt 4) ]),
     {| questions :=
          questions small_db ++
          [ {| Question.id := 4;
               Question.question := "What is the capital of France?";
               Question.answer := "Paris";
               Question.category := "3";
               Question.difficulty := 1 |} ];
        categories := categories small_db;
        next_id := 5 |}).
Proof. reflexivity. Qed.

Lemma search_capital_matches_Capital :
  fst (dispatch
         (search_questions strict_env
            (post_request (VDict [ (KStr "searchTerm", VStr "capital") ])))
         small_db)
  = Json 200
      (VDict
         [ (KStr "success", VBool true);
           (KStr "questions",
             VList [ Question.format
                       (sample_question 1 "What is the Capital of France?"
                          "1") ]);
           (KStr "total_questions", VInt 1) ]).
Proof. reflexivity. Qed.

(** * Further properties of the handlers *)

(** ** Pages *)

Lemma firstn_plus {A} (a b : nat) (l : list A) :
  firstn (a + b) l = firstn a l ++ firstn b (skipn a l).
Proof.
  revert l. induction a as [| a IH]; intros l; simpl; [reflexivity |].
  destruct l as [| x l]; simpl.
  - now rewrite firstn_nil.
  - now rewrite IH.
Qed.

(** A slice is a run of consecutive elements of the list. *)
Lemma slice_segment {A} (l : list A) (start stop : Z) :
  exists before after, l = before ++ slice l start stop ++ after.
Proof.
  unfold slice.
  destruct (adjust_index _ start <? adjust_index _ stop).
  - exists (firstn (Z.to_nat (adjust_index (Z.of_nat (List.length l)) start)) l).
    eexists.
    rewrite firstn_skipn. now rewrite firstn_skipn.
  - exists [], l. reflexivity.
Qed.

Lemma slice_length_le {A} (l : list A) (start stop : Z) :
  0 <= stop - start ->
  Z.of_nat (List.length (slice l start stop)) <= stop - start.
Proof.
  intros Hle. unfold slice, adjust_index.
  set (len := Z.of_nat (List.length l)).
  destruct (start <? 0) eqn:Hs; destruct (stop <? 0) eqn:He;
    [apply Z.ltb_lt in Hs | apply Z.ltb_lt in Hs | apply Z.ltb_ge in Hs
     | apply Z.ltb_ge in Hs];
    [apply Z.ltb_lt in He | apply Z.ltb_ge in He | apply Z.ltb_lt in He
     | apply Z.ltb_ge in He];
    match goal with
    | |- context [if ?c then _ else _] => destruct c eqn:Hc
    end;
    try (simpl; lia);
    apply Z.ltb_lt in Hc; rewrite length_firstn; lia.
Qed.

(** X1. Whatever the page parameter (absent, not a number, zero, negative
    or beyond the end), the helper returns a run of consecutive elements of
    the formatted list, of at most ten elements: it never raises, never
    repeats or reorders questions. *)
Theorem paginate_questions_segment
    (r : request) (selection : list Question.t) :
  (exists before after,
      List.map Question.format selection
      = before ++ paginate_questions r selection ++ after)
  /\ (List.length (paginate_questions r selection) <= 10)%nat.
Proof.
  unfold paginate_questions, QUESTIONS_PER_PAGE. split.
  - apply slice_segment.
  - pose proof (slice_length_le (List.map Question.format selection)
                  ((args_get_page r - 1) * 10)
                  ((args_get_page r - 1) * 10 + 10) ltac:(lia)) as H.
    lia.
Qed.

Lemma paginate_questions_positive (N : Z) (selection : list Question.t) :
  1 <= N ->
  paginate_questions (get_request (IntArg N)) selection
  = firstn 10 (skipn (Z.to_nat (10 * (N - 1)))
                 (List.map Question.format selection)).
Proof.
  intros HN. unfold paginate_questions, QUESTIONS_PER_PAGE, args_get_page.
  simpl args_page. rewrite slice_from_start by lia.
  replace ((N - 1) * 10 + 10 - (N - 1) * 10) with 10 by lia.
  replace ((N - 1) * 10) with (10 * (N - 1)) by lia.
  reflexivity.
Qed.

(** The pages 1, 2, ..., [k], one after the other. *)
Definition pages_up_to (k : nat) (selection : list Question.t)
  : list value :=
  List.concat
    (List.map
       (fun N => paginate_questions (get_request (IntArg (Z.of_nat N)))
                   selection)
       (seq 1 k)).

(** X2. Pages 1 to [k] put end to end are the first [10 * k] formatted
    questions; once [10 * k] reaches the number of questions they are the
    whole list, each question on exactly one page and in order. *)
Theorem pages_cover_selection (k : nat) (selection : list Question.t) :
  pages_up_to k selection
  = firstn (10 * k) (List.map Question.format selection)
  /\ ((List.length selection <= 10 * k)%nat ->
      pages_up_to k selection = List.map Question.format selection).
Proof.
  assert (Hfirst : pages_up_to k selection
                   = firstn (10 * k) (List.map Question.format selection)).
  { unfold pages_up_to. induction k as [| k IH].
    - reflexivity.
    - rewrite seq_S, map_app, concat_app, IH. simpl List.map.
      simpl List.concat. rewrite app_nil_r.
      rewrite paginate_questions_positive by lia.
      replace (10 * S k)%nat with (10 * k + 10)%nat by lia.
      rewrite firstn_plus. do 3 f_equal. lia. }
  split; [exact Hfirst |].
  intros Hlen. rewrite Hfirst. apply firstn_all2.
  now rewrite length_map.
Qed.

Lemma pages_cover_selection_witness :
  pages_up_to 2 (questions eleven_db)
  = List.map Question.format (questions eleven_db).
Proof.
  refine (proj2 (pages_cover_selection 2 (questions eleven_db)) _).
  simpl. lia.
Defined.

(** X3. For a page number that is at least 1 (absent and non-numeric
    parameters count as 1), [GET /questions] answers 200 exactly when the
    table has more than [10 * (page - 1)] questions and 404 otherwise;
    whether there are categories plays no part. *)
Theorem get_questions_found_iff (r : request) (db : database) :
  1 <= args_get_page r ->
  let n := Z.of_nat (List.length (questions db)) in
  (10 * (args_get_page r - 1) < n ->
   status_code (fst (dispatch (get_questions r) db)) = 200)
  /\ (n <= 10 * (args_get_page r - 1) ->
      dispatch (get_questions r) db = (not_found, db)).
Proof.
  intros Hpage. cbv zeta.
  pose proof (paginate_questions_nil_iff r (order_by_id (questions db)))
    as Hnil.
  cbv zeta in Hnil. rewrite order_by_id_length in Hnil.
  unfold adjust_index in Hnil.
  assert (H1 : ((args_get_page r - 1) * 10 + 10 <? 0) = false)
    by (apply Z.ltb_ge; lia).
  assert (H2 : ((args_get_page r - 1) * 10 <? 0) = false)
    by (apply Z.ltb_ge; lia).
  rewrite H1, H2 in Hnil.
  rewrite get_questions_dispatch.
  split; intros Hn.
  - destruct (paginate_questions r (order_by_id (questions db)));
      [| reflexivity].
    exfalso. assert (H : @nil value = []) by reflexivity.
    apply Hnil in H. lia.
  - assert (H : paginate_questions r (order_by_id (questions db)) = [])
      by (apply Hnil; lia).
    now rewrite H.
Qed.

Lemma get_questions_found_iff_witness :
  status_code
    (fst (dispatch (get_questions (get_request TextArg)) small_db)) = 200
  /\ dispatch (get_questions (get_request (IntArg 1000))) small_db
     = (not_found, small_db).
Proof.
  split.
  - refine (proj1 (get_questions_found_iff (get_request TextArg) small_db _)
              _);
      unfold args_get_page, get_request, small_db; simpl; lia.
  - refine (proj2 (get_questions_found_iff (get_request (IntArg 1000))
                     small_db _) _);
      unfold args_get_page, get_request, small_db; simpl; lia.
Defined.

(** ** The categories *)

Lemma get_categories_dispatch (db : database) :
  dispatch get_categories db =
  (match categories db with
   | [] => not_found
   | _ :: _ =>
       Json 200 (VDict [ (KStr "success", VBool true);
                         (KStr "categories",
                           categories_dict (categories db)) ])
   end, db).
Proof.
  unfold dispatch, get_categories, bind, Category_query_all; simpl.
  destruct (categories db); reflexivity.
Qed.

Lemma get_questions_by_category_dispatch (category_id : Z) (db : database) :
  dispatch (get_questions_by_category category_id) db =
  (match List.filter
           (fun q => String.eqb (Question.category q) (str_int category_id))
           (questions db) with
   | [] => not_found
   | matching =>
       Json 200
         (VDict
            [ (KStr "success", VBool true);
              (KStr "questions", VList (List.map Question.format matching));
              (KStr "total_questions",
                VInt (Z.of_nat (List.length matching)));
              (KStr "current_category", VInt category_id) ])
   end, db).
Proof.
  unfold dispatch, get_questions_by_category, bind, Question_query_filter;
    simpl.
  destruct (List.filter _ (questions db)); reflexivity.
Qed.

Lemma find_unique_id (cats : list Category.t) (c : Category.t) :
  NoDup (List.map Category.id cats) -> In c cats ->
  List.find (fun x => Category.id x =? Category.id c) cats = Some c.
Proof.
  induction cats as [| x cats IH]; intros Hnd Hin; [destruct Hin |].
  simpl in Hnd. inversion Hnd as [| y l Hnotin Hnd']; subst.
  simpl. destruct Hin as [-> | Hin].
  - now rewrite Z.eqb_refl.
  - destruct (Category.id x =? Category.id c) eqn:Hx.
    + apply Z.eqb_eq in Hx. exfalso. apply Hnotin. rewrite Hx.
      now apply in_map.
    + now apply IH.
Qed.

Lemma find_no_id (cats : list Category.t) (k : Z) :
  (forall c, In c cats -> Category.id c <> k) ->
  List.find (fun x => Category.id x =? k) cats = None.
Proof.
  induction cats as [| x cats IH]; intros H; simpl; [reflexivity |].
  destruct (Category.id x =? k) eqn:Hx.
  - apply Z.eqb_eq in Hx. exfalso. apply (H x); [now left | exact Hx].
  - apply IH. intros c Hc. apply H. now right.
Qed.

(** X4. [GET /categories] answers 404 exactly when the table of categories
    is empty; otherwise it answers 200 with a dict that, when the ids are
    distinct, maps the id of every category to its type and has no entry
    for any other integer.  The database is not changed. *)
Theorem get_categories_outcome (db : database) :
  exists d,
    categories_dict (categories db) = VDict d
    /\ dispatch get_categories db =
       (match categories db with
        | [] => not_found
        | _ :: _ =>
            Json 200 (VDict [ (KStr "success", VBool true);
                              (KStr "categories", VDict d) ])
        end, db)
    /\ (NoDup (List.map Category.id (categories db)) ->
        forall c, In c (categories db) ->
                  lookup (KInt (Category.id c)) d
                  = Some (VStr (Category.type c)))
    /\ (forall k, (forall c, In c (categories db) -> Category.id c <> k) ->
                  lookup (KInt k) d = None).
Proof.
  eexists. split; [reflexivity |]. split; [| split].
  - unfold dispatch, get_categories, bind, Category_query_all; simpl.
    destruct (categories db); reflexivity.
  - intros Hnd c Hc. rewrite lookup_fold_setitem.
    rewrite find_unique_id; [reflexivity | |].
    + rewrite map_rev. apply NoDup_rev. exact Hnd.
    + apply in_rev in Hc. exact Hc.
  - intros k Hk. rewrite lookup_fold_setitem.
    rewrite find_no_id; [reflexivity |].
    intros c Hc. apply Hk. now apply in_rev.
Qed.

Lemma get_categories_outcome_witness :
  exists d,
    categories_dict (categories small_db) = VDict d
    /\ lookup (KInt 2) d = Some (VStr "Art")
    /\ lookup (KInt 7) d = None.
Proof.
  destruct (get_categories_outcome small_db) as (d & Hd & _ & Hin & Hout).
  exists d. split; [exact Hd |]. split.
  - apply (Hin ltac:(repeat constructor; simpl; intuition discriminate) art).
    simpl. tauto.
  - apply Hout. intros c [<- | [<- | []]]; discriminate.
Defined.

(** ** The listing and its categories *)

Lemma lookup_fold_setitem_str (cats : list Category.t)
    (d : list (key * value)) (name : string) :
  lookup (KStr name)
    (fold_left
       (fun d c => setitem (KInt (Category.id c)) (VStr (Category.type c)) d)
       cats d)
  = lookup (KStr name) d.
Proof.
  revert d. induction cats as [| c cats IH]; intros d; simpl;
    [reflexivity |].
  rewrite IH. apply lookup_setitem_ne. discriminate.
Qed.

(** C7. [GET /questions?page=N] answers 404 when the page slice is empty,
    which it is for every page beyond the last; otherwise it answers with
    the page of the questions in increasing order of id, the number of
    all questions, a null current category and the mapping of all
    categories: a dict whose entry for an integer is the type of the
    category of that id (each category's own type when the ids are
    distinct), with no entry for an integer that is no category's id and
    none for a string.  The database is not changed. *)
Theorem get_questions_page (r : request) (db : database) :
  let selection := order_by_id (questions db) in
  let current_questions := paginate_questions r selection in
  (Permutation selection (questions db) /\ Sorted id_le selection) /\
  (exists mapping,
      dispatch (get_questions r) db =
        (match current_questions with
         | [] => not_found
         | _ :: _ =>
             Json 200
               (VDict
                  [ (KStr "success", VBool true);
                    (KStr "questions", VList current_questions);
                    (KStr "total_questions",
                      VInt (Z.of_nat (List.length (questions db))));
                    (KStr "categories", VDict mapping);
                    (KStr "current_category", VNone) ])
         end, db)
      /\ (forall k,
            lookup (KInt k) mapping
            = option_map (fun c => VStr (Category.type c))
                (List.find (fun c => Category.id c =? k)
                   (rev (categories db))))
      /\ (forall name, lookup (KStr name) mapping = None)
      /\ (NoDup (List.map Category.id (categories db)) ->
          forall c, In c (categories db) ->
                    lookup (KInt (Category.id c)) mapping
                    = Some (VStr (Category.type c)))
      /\ (forall k,
            (forall c, In c (categories db) -> Category.id c <> k) ->
            lookup (KInt k) mapping = None)) /\
  (1 <= args_get_page r ->
   Z.of_nat (List.length (questions db)) <= 10 * (args_get_page r - 1) ->
   current_questions = []).
Proof.
  cbv zeta. split; [split |]; [| | split].
  - apply order_by_id_perm.
  - apply order_by_id_sorted.
  - eexists. split; [apply get_questions_dispatch |].
    split; [| split; [| split]].
    + intros k. rewrite lookup_fold_setitem.
      now destruct (List.find _ (rev (categories db))).
    + intros name. now rewrite lookup_fold_setitem_str.
    + intros Hnd c Hc. rewrite lookup_fold_setitem.
      rewrite find_unique_id; [reflexivity | |].
      * rewrite map_rev. apply NoDup_rev. exact Hnd.
      * apply in_rev in Hc. exact Hc.
    + intros k Hk. rewrite lookup_fold_setitem.
      rewrite find_no_id; [reflexivity |].
      intros c Hc. apply Hk. now apply in_rev.
  - intros Hpage Hlen.
    apply paginate_questions_nil_iff. cbv zeta.
    rewrite order_by_id_length. unfold adjust_index.
    assert (H1 : ((args_get_page r - 1) * 10 + 10 <? 0) = false)
      by (apply Z.ltb_ge; lia).
    assert (H2 : ((args_get_page r - 1) * 10 <? 0) = false)
      by (apply Z.ltb_ge; lia).
    rewrite H1, H2. lia.
Qed.

Lemma get_questions_page_witness :
  fst (dispatch (get_questions (get_request (IntArg 3))) eleven_db)
  = not_found
  /\ exists mapping,
       fst (dispatch (get_questions (get_request (IntArg 2))) eleven_db)
       = Json 200
           (VDict
              [ (KStr "success", VBool true);
                (KStr "questions",
                  VList [ Question.format (sample_question 11 "abc" "1") ]);
                (KStr "total_questions", VInt 11);
                (KStr "categories", VDict mapping);
                (KStr "current_category", VNone) ])
       /\ lookup (KInt 1) mapping = Some (VStr "Science")
       /\ lookup (KInt 2) mapping = Some (VStr "Art")
       /\ lookup (KInt 3) mapping = None
       /\ lookup (KStr "1") mapping = None.
Proof.
  split.
  - destruct (get_questions_page (get_request (IntArg 3)) eleven_db)
      as (_ & (mapping & Hresp & _) & Hnil).
    rewrite Hresp, Hnil; [reflexivity | |];
      unfold args_get_page, get_request, eleven_db; simpl; lia.
  - destruct (get_questions_page (get_request (IntArg 2)) eleven_db)
      as (_ & (mapping & Hresp & _ & Hstr & Hin & Hout) & _).
    exists mapping. split; [now rewrite Hresp |].
    assert (Hnd : NoDup (List.map Category.id (categories eleven_db)))
      by (simpl; repeat constructor; simpl; intuition discriminate).
    split; [apply (Hin Hnd science); simpl; tauto |].
    split; [apply (Hin Hnd art); simpl; tauto |].
    split; [| apply Hstr].
    apply Hout. intros c [<- | [<- | []]]; discriminate.
Defined.

(** ** What the handlers leave alone *)

(** X5. The five handlers that only read (categories, questions, questions
    of a category, search, quiz) leave the database exactly as it was, for
    every request, whatever its body and whatever they answer. *)
Theorem reading_handlers_change_nothing
    (env : environment) (r : request) (category_id : Z) (db : database) :
  snd (dispatch get_categories db) = db
  /\ snd (dispatch (get_questions r) db) = db
  /\ snd (dispatch (get_questions_by_category category_id) db) = db
  /\ snd (dispatch (search_questions env r) db) = db
  /\ snd (dispatch (play_quiz env r) db) = db.
Proof.
  split; [| split; [| split; [| split]]].
  - now rewrite get_categories_dispatch.
  - now rewrite get_questions_dispatch.
  - now rewrite get_questions_by_category_dispatch.
  - destruct r as [page body].
    destruct body as [[] | code]; try reflexivity.
    now rewrite search_questions_dispatch.
  - destruct r as [page body].
    destruct body as [[] | code]; try reflexivity.
    now rewrite play_quiz_dispatch.
Qed.

(** X6. No handler changes the table of categories, and the id sequence
    never goes back: creating and deleting questions keep the categories
    and a [next_id] that is at least what it was. *)
Theorem writing_handlers_keep_categories
    (env : environment) (r : request) (question_id : Z) (db : database) :
  (categories (snd (dispatch (create_question env r) db)) = categories db
   /\ next_id db <= next_id (snd (dispatch (create_question env r) db)))
  /\ (categories (snd (dispatch (delete_question env question_id) db))
      = categories db
      /\ next_id (snd (dispatch (delete_question env question_id) db))
         = next_id db).
Proof.
  split.
  - destruct r as [page body].
    destruct body as [[| | | | | fields] | code]; try (split; [reflexivity | simpl; lia]).
    rewrite create_question_dispatch.
    destruct (_ && _)%bool; [| split; [reflexivity | simpl; lia]].
    destruct (Question_insert _ _ _ _ _ _) as [[created | e] s'] eqn:Hins;
      [| split; [reflexivity | simpl; lia]].
    unfold Question_insert in Hins.
    destruct (bind_text env (field fields "question")); [| discriminate].
    destruct (bind_text env (field fields "answer")); [| discriminate].
    destruct (bind_text env (field fields "category")); [| discriminate].
    destruct (bind_integer env (field fields "difficulty"));
      [| discriminate].
    destruct (commit_raises env); [discriminate |].
    injection Hins as <- <-. simpl. split; [reflexivity | lia].
  - rewrite delete_question_dispatch.
    destruct (List.find _ (questions db)); [| split; reflexivity].
    destruct (commit_raises env); split; reflexivity.
Qed.

(** ** Which answers a handler can give *)

(** X7. The status codes of each endpoint: 200 or 404 for the three GET
    endpoints; 200, 404 or 422 for the delete.  For the three POST
    endpoints, when [get_json] yields the body: 200, 422 or 500 for the
    create and the quiz, 200 or 500 for the search, the 500 only for a
    body that is not a JSON object.  When [get_json] raises instead, they
    answer with the error handler of its code and leave the database as
    it was: for a body that is not valid JSON that is the 400 envelope,
    the only 400 a handler gives. *)
Theorem handler_status_codes
    (env : environment) (r : request) (n : Z) (db : database) :
  In (status_code (fst (dispatch get_categories db))) [200; 404]
  /\ In (status_code (fst (dispatch (get_questions r) db))) [200; 404]
  /\ In (status_code (fst (dispatch (get_questions_by_category n) db)))
       [200; 404]
  /\ In (status_code (fst (dispatch (delete_question env n) db)))
       [200; 404; 422]
  /\ (forall data : value,
        get_json r = data ->
        In (status_code (fst (dispatch (create_question env r) db)))
          [200; 422; 500]
        /\ In (status_code (fst (dispatch (search_questions env r) db)))
             [200; 500]
        /\ In (status_code (fst (dispatch (play_quiz env r) db)))
             [200; 422; 500])
  /\ (forall fields,
        get_json r = VDict fields ->
        In (status_code (fst (dispatch (create_question env r) db)))
          [200; 422]
        /\ status_code (fst (dispatch (search_questions env r) db)) = 200
        /\ In (status_code (fst (dispatch (play_quiz env r) db)))
             [200; 422])
  /\ (forall code,
        get_json r = Rejected code ->
        dispatch (create_question env r) db = (errorhandler code, db)
        /\ dispatch (search_questions env r) db = (errorhandler code, db)
        /\ dispatch (play_quiz env r) db = (errorhandler code, db)
        /\ status_code (errorhandler code) = code
        /\ (code = 400 -> errorhandler code = bad_request)).
Proof.
  assert (Hcreate : forall page fields,
             In (status_code
                   (fst (dispatch
                           (create_question env
                              {| args_page := page;
                                 get_json := VDict fields |}) db)))
               [200; 422]).
  { intros page fields. rewrite create_question_dispatch.
    destruct (_ && _)%bool; [| simpl; tauto].
    destruct (Question_insert _ _ _ _ _ _) as [[created | e] s'];
      simpl; tauto. }
  assert (Hquiz : forall page fields,
             In (status_code
                   (fst (dispatch
                           (play_quiz env
                              {| args_page := page;
                                 get_json := VDict fields |}) db)))
               [200; 422]).
  { intros page fields. rewrite play_quiz_dispatch.
    destruct (getitem _ _); [| simpl; tauto].
    destruct (notin_ _ _); simpl; tauto. }
  split; [| split; [| split; [| split; [| split; [| split]]]]].
  - rewrite get_categories_dispatch.
    destruct (categories db); simpl; tauto.
  - rewrite get_questions_dispatch.
    destruct (paginate_questions _ _); simpl; tauto.
  - rewrite get_questions_by_category_dispatch.
    destruct (List.filter _ _); simpl; tauto.
  - rewrite delete_question_dispatch.
    destruct (List.find _ _); [| simpl; tauto].
    destruct (commit_raises env); simpl; tauto.
  - intros data Hbody. destruct r as [page body]. simpl in Hbody.
    subst body.
    destruct data as [| | | | | fields];
      try (repeat split; simpl; tauto).
    specialize (Hcreate page fields). specialize (Hquiz page fields).
    rewrite search_questions_dispatch. simpl in *. tauto.
  - intros fields Hbody. destruct r as [page body]. simpl in Hbody.
    subst body. split; [apply Hcreate | split; [| apply Hquiz]].
    now rewrite search_questions_dispatch.
  - intros code Hbody. destruct r as [page body]. simpl in Hbody.
    subst body. repeat split.
    + unfold errorhandler.
      destruct (code =? 404) eqn:H404;
        [apply Z.eqb_eq in H404; now subst |].
      destruct (code =? 422) eqn:H422;
        [apply Z.eqb_eq in H422; now subst |].
      destruct (code =? 400) eqn:H400;
        [apply Z.eqb_eq in H400; now subst | reflexivity].
    + intros ->. reflexivity.
Qed.

Lemma handler_status_codes_witness :
  status_code
    (fst (dispatch (search_questions strict_env
                      (post_request (VDict [ (KStr "searchTerm", VInt 5) ])))
            small_db)) = 200
  /\ dispatch (create_question strict_env
                 {| args_page := NoArg; get_json := Rejected 400 |})
       small_db
     = (bad_request, small_db).
Proof.
  split.
  - destruct (handler_status_codes strict_env
                (post_request (VDict [ (KStr "searchTerm", VInt 5) ])) 0
                small_db) as (_ & _ & _ & _ & _ & H & _).
    exact (proj1 (proj2 (H _ eq_refl))).
  - destruct (handler_status_codes strict_env
                {| args_page := NoArg; get_json := Rejected 400 |} 0
                small_db) as (_ & _ & _ & _ & _ & _ & H).
    exact (proj1 (H 400 eq_refl)).
Defined.

(** ** Primary keys under create and delete *)

Lemma small_db_well_formed : well_formed small_db.
Proof.
  split.
  - simpl. repeat constructor; simpl; intuition discriminate.
  - repeat constructor; simpl; lia.
Qed.

Lemma create_question_well_formed_witness :
  well_formed
    (snd (dispatch
            (create_question strict_env
               (post_request
                  (VDict [ (KStr "question", VStr "q");
                           (KStr "answer", VStr "a");
                           (KStr "category", VStr "1");
                           (KStr "difficulty", VInt 2) ]))) small_db)).
Proof.
  apply create_question_well_formed. split.
  - simpl. repeat constructor; simpl; intuition discriminate.
  - repeat constructor; simpl; lia.
Defined.

Lemma delete_question_well_formed_witness :
  well_formed (snd (dispatch (delete_question strict_env 2) small_db)).
Proof.
  apply delete_question_well_formed. split.
  - simpl. repeat constructor; simpl; intuition discriminate.
  - repeat constructor; simpl; lia.
Defined.

(** ** Creating, then reading or deleting *)

(** A create that answers 200 had an object body, took the next id of the
    sequence, and stored one row bound from the four fields. *)
Lemma create_question_success
    (env : environment) (page : query_arg) (body resp : value)
    (db : database) :
  fst (dispatch (create_question env {| args_page := page;
                                        get_json := body |}) db)
  = Json 200 resp ->
  exists fields row,
    body = VDict fields
    /\ resp = VDict [ (KStr "success", VBool true);
                      (KStr "created", VInt (next_id db)) ]
    /\ Question.id row = next_id db
    /\ bind_text env (field fields "question") = Some (Question.question row)
    /\ bind_text env (field fields "answer") = Some (Question.answer row)
    /\ bind_text env (field fields "category") = Some (Question.category row)
    /\ bind_integer env (field fields "difficulty")
       = Some (Question.difficulty row)
    /\ commit_raises env = false
    /\ snd (dispatch (create_question env {| args_page := page;
                                             get_json := body |}) db)
       = {| questions := questions db ++ [row];
            categories := categories db;
            next_id := next_id db + 1 |}.
Proof.
  destruct body as [| | | | | fields]; try discriminate.
  rewrite create_question_dispatch.
  destruct (_ && _)%bool; [| discriminate].
  unfold Question_insert.
  destruct (bind_text env (field fields "question")) as [q |] eqn:Hq;
    [| discriminate].
  destruct (bind_text env (field fields "answer")) as [a |] eqn:Ha;
    [| discriminate].
  destruct (bind_text env (field fields "category")) as [c |] eqn:Hc;
    [| discriminate].
  destruct (bind_integer env (field fields "difficulty")) as [d |] eqn:Hd;
    [| discriminate].
  destruct (commit_raises env); [discriminate |].
  simpl. intros H. injection H as <-.
  exists fields.
  exists {| Question.id := next_id db; Question.question := q;
            Question.answer := a; Question.category := c;
            Question.difficulty := d |}.
  simpl. repeat split; assumption.
Qed.

Lemma filter_out_fresh (l : list Question.t) (k : Z) :
  Forall (fun q => Question.id q < k) l ->
  List.filter (fun q => negb (Question.id q =? k)) l = l.
Proof.
  intros H. apply forallb_filter_id, forallb_forall.
  intros q Hq. rewrite Forall_forall in H. apply H in Hq.
  apply negb_true_iff, Z.eqb_neq. lia.
Qed.

Lemma find_fresh (l : list Question.t) (k : Z) :
  Forall (fun q => Question.id q < k) l ->
  List.find (fun q => Question.id q =? k) l = None.
Proof.
  intros H. apply find_none_iff. intros q Hq.
  rewrite Forall_forall in H. apply H in Hq. lia.
Qed.

(** X10. Create, then delete what was created: in a database whose ids are
    below the sequence's next value, deleting the id that a successful
    create returned answers 200 and gives back the table of questions and
    the categories as they were before the create; only the id sequence
    has moved on. *)
Theorem create_then_delete_restores
    (env env' : environment) (r : request) (db : database) (resp : value) :
  well_formed db ->
  commit_raises env' = false ->
  fst (dispatch (create_question env r) db) = Json 200 resp ->
  resp = VDict [ (KStr "success", VBool true);
                 (KStr "created", VInt (next_id db)) ]
  /\ dispatch (delete_question env' (next_id db))
       (snd (dispatch (create_question env r) db))
     = (Json 200 (VDict [ (KStr "success", VBool true);
                          (KStr "deleted", VInt (next_id db)) ]),
        {| questions := questions db;
           categories := categories db;
           next_id := next_id db + 1 |}).
Proof.
  intros [_ Hbelow] Hcommit Hok. destruct r as [page [body | code]];
    [| now apply errorhandler_not_200 in Hok].
  apply create_question_success in Hok.
  destruct Hok as (fields & row & _ & -> & Hid & _ & _ & _ & _ & _ & ->).
  split; [reflexivity |].
  rewrite delete_question_dispatch. simpl questions.
  rewrite find_append, (find_fresh _ _ Hbelow). simpl.
  rewrite Hid, Z.eqb_refl, Hcommit.
  rewrite filter_app, (filter_out_fresh _ _ Hbelow). simpl.
  rewrite Hid, Z.eqb_refl. simpl. now rewrite app_nil_r.
Qed.

Lemma create_then_delete_restores_witness :
  dispatch (delete_question strict_env 4)
    (snd (dispatch
            (create_question strict_env
               (post_request
                  (VDict [ (KStr "question", VStr "Will be deleted?");
                           (KStr "answer", VStr "Yes");
                           (KStr "category", VStr "3");
                           (KStr "difficulty", VInt 1) ]))) small_db))
  = (Json 200 (VDict [ (KStr "success", VBool true);
                       (KStr "deleted", VInt 4) ]),
     {| questions := questions small_db;
        categories := categories small_db;
        next_id := 5 |}).
Proof.
  refine (proj2 (create_then_delete_restores strict_env strict_env
                   (post_request
                      (VDict [ (KStr "question", VStr "Will be deleted?");
                               (KStr "answer", VStr "Yes");
                               (KStr "category", VStr "3");
                               (KStr "difficulty", VInt 1) ]))
                   small_db _ _ eq_refl eq_refl)).
  split.
  - simpl. repeat constructor; simpl; intuition discriminate.
  - repeat constructor; simpl; lia.
Defined.

(** X11. Create, then read: when the four fields are strings and an
    integer, a successful create stores them as they are under the
    returned id, at the end of the table; a lookup by that id finds this
    row, and a search with an empty term lists it last. *)
Theorem create_then_found
    (env : environment) (page : query_arg) (fields : list (key * value))
    (db : database) (q a c : string) (d : Z) (resp : value) :
  well_formed db ->
  lookup (KStr "question") fields = Some (VStr q) ->
  lookup (KStr "answer") fields = Some (VStr a) ->
  lookup (KStr "category") fields = Some (VStr c) ->
  lookup (KStr "difficulty") fields = Some (VInt d) ->
  let r := {| args_page := page; get_json := VDict fields |} in
  fst (dispatch (create_question env r) db) = Json 200 resp ->
  let row := {| Question.id := next_id db; Question.question := q;
                Question.answer := a; Question.category := c;
                Question.difficulty := d |} in
  let db' := snd (dispatch (create_question env r) db) in
  questions db' = questions db ++ [row]
  /\ List.find (fun x => Question.id x =? next_id db) (questions db')
     = Some row
  /\ fst (dispatch (search_questions env (post_request (VDict []))) db')
     = Json 200
         (VDict
            [ (KStr "success", VBool true);
              (KStr "questions",
                VList (List.map Question.format (questions db)
                       ++ [Question.format row]));
              (KStr "total_questions",
                VInt (Z.of_nat (List.length (questions db)) + 1)) ]).
Proof.
  intros [_ Hbelow] Hq Ha Hc Hd r Hok row db'.
  subst r db'. apply create_question_success in Hok.
  destruct Hok as (fields' & row' & Hf & _ & Hid & Hq' & Ha' & Hc' & Hd'
                   & _ & ->).
  injection Hf as <-.
  unfold field in Hq', Ha', Hc', Hd'.
  rewrite Hq in Hq'. rewrite Ha in Ha'. rewrite Hc in Hc'. rewrite Hd in Hd'.
  simpl in Hq', Ha', Hc', Hd'.
  assert (Hrow : row' = row).
  { destruct row' as [i q0 a0 c0 d0]. simpl in *. subst row.
    congruence. }
  subst row'. simpl questions.
  split; [reflexivity |]. split.
  - rewrite find_append, (find_fresh _ _ Hbelow). simpl.
    now rewrite Z.eqb_refl.
  - unfold post_request. rewrite search_questions_dispatch.
    unfold search_term_of. simpl lookup. simpl str.
    change ("%" ++ "" ++ "%")%string with "%%".
    rewrite forallb_filter_id
      by (apply forallb_forall; intros x _; apply ilike_any_run_twice).
    simpl. rewrite map_app, length_app. simpl.
    replace (Z.of_nat (List.length (questions db) + 1))
      with (Z.of_nat (List.length (questions db)) + 1) by lia.
    reflexivity.
Qed.

Lemma create_then_found_witness :
  List.find (fun x => Question.id x =? 4)
    (questions
       (snd (dispatch
               (create_question strict_env
                  (post_request
                     (VDict [ (KStr "question", VStr "Who?");
                              (KStr "answer", VStr "Me");
                              (KStr "category", VStr "2");
                              (KStr "difficulty", VInt 3) ]))) small_db)))
  = Some {| Question.id := 4; Question.question := "Who?";
            Question.answer := "Me"; Question.category := "2";
            Question.difficulty := 3 |}.
Proof.
  refine (proj1 (proj2
    (create_then_found strict_env NoArg
       [ (KStr "question", VStr "Who?"); (KStr "answer", VStr "Me");
         (KStr "category", VStr "2"); (KStr "difficulty", VInt 3) ]
       small_db "Who?" "Me" "2" 3 _ _ eq_refl eq_refl eq_refl eq_refl
       eq_refl))).
  split.
  - simpl. repeat constructor; simpl; intuition discriminate.
  - repeat constructor; simpl; lia.
Defined.

(** ** Deleting *)

Lemma filter_out_one (l : list Question.t) (q : Question.t) :
  NoDup (List.map Question.id l) -> In q l ->
  S (List.length
       (List.filter (fun x => negb (Question.id x =? Question.id q)) l))
  = List.length l.
Proof.
  induction l as [| x l IH]; intros Hnd Hin; [destruct Hin |].
  simpl in Hnd. inversion Hnd as [| y l' Hnotin Hnd']; subst.
  simpl. destruct Hin as [-> | Hin].
  - rewrite Z.eqb_refl. simpl.
    rewrite forallb_filter_id; [reflexivity |].
    apply forallb_forall. intros x Hx.
    apply negb_true_iff, Z.eqb_neq. intros Heq.
    apply Hnotin. rewrite <- Heq. now apply in_map.
  - destruct (Question.id x =? Question.id q) eqn:Hx; simpl.
    + apply Z.eqb_eq in Hx. exfalso. apply Hnotin. rewrite Hx.
      now apply in_map.
    + now rewrite <- (IH Hnd' Hin).
Qed.

(** X12. With distinct ids, a delete that goes through removes exactly the
    question of that id: the table is one row shorter, every other row is
    still there, in the same order, and no row appears. *)
Theorem delete_question_removes_one
    (env : environment) (q : Question.t) (db : database) :
  well_formed db ->
  In q (questions db) ->
  commit_raises env = false ->
  let db' := snd (dispatch (delete_question env (Question.id q)) db) in
  fst (dispatch (delete_question env (Question.id q)) db)
  = Json 200 (VDict [ (KStr "success", VBool true);
                      (KStr "deleted", VInt (Question.id q)) ])
  /\ S (List.length (questions db')) = List.length (questions db)
  /\ (forall x, In x (questions db') <-> In x (questions db) /\ x <> q)
  /\ questions db'
     = List.filter (fun x => negb (Question.id x =? Question.id q))
         (questions db).
Proof.
  intros [Hnd _] Hin Hcommit. cbv zeta.
  rewrite delete_question_dispatch.
  destruct (List.find _ (questions db)) eqn:Hfind.
  - rewrite Hcommit. simpl. split; [reflexivity |].
    split; [now apply filter_out_one |]. split; [| reflexivity].
    intros x. rewrite filter_In, negb_true_iff, Z.eqb_neq. split.
    + intros [Hx Hne]. split; [exact Hx | congruence].
    + intros [Hx Hne]. split; [exact Hx |].
      intros Heq. apply Hne.
      clear Hfind. induction (questions db) as [| y l IH];
        [destruct Hx |].
      simpl in Hnd. inversion Hnd as [| z l' Hnotin Hnd']; subst.
      destruct Hx as [-> | Hx], Hin as [-> | Hin]; try reflexivity.
      * exfalso. apply Hnotin. rewrite Heq. now apply in_map.
      * exfalso. apply Hnotin. rewrite <- Heq. now apply in_map.
      * now apply IH.
  - exfalso. apply (proj1 (find_none_iff _ _) Hfind q Hin). reflexivity.
Qed.

Lemma delete_question_removes_one_witness :
  questions
    (snd (dispatch
            (delete_question strict_env
               (Question.id (sample_question 2 "abc" "1"))) small_db))
  = [ sample_question 3 "Is the title short?" "2";
      sample_question 1 "What is the Capital of France?" "1" ].
Proof.
  refine (proj2 (proj2 (proj2
    (delete_question_removes_one strict_env (sample_question 2 "abc" "1")
       small_db _ _ eq_refl)))).
  - split.
    + simpl. repeat constructor; simpl; intuition discriminate.
    + repeat constructor; simpl; lia.
  - simpl. tauto.
Defined.

(** X13. Deleting twice: after a delete that answered 200, a second delete
    of the same id answers 404 and changes nothing, whether or not its
    own commit would go through. *)
Theorem delete_question_twice
    (env env' : environment) (question_id : Z) (db : database) :
  status_code (fst (dispatch (delete_question env question_id) db)) = 200 ->
  let db' := snd (dispatch (delete_question env question_id) db) in
  dispatch (delete_question env' question_id) db' = (not_found, db').
Proof.
  cbv zeta. rewrite (delete_question_dispatch env question_id db).
  destruct (List.find _ (questions db)); [| discriminate].
  destruct (commit_raises env); [discriminate |].
  intros _. simpl. rewrite delete_question_dispatch. simpl.
  now rewrite find_filter_out.
Qed.

Lemma delete_question_twice_witness :
  dispatch (delete_question failing_env 2)
    (snd (dispatch (delete_question strict_env 2) small_db))
  = (not_found, snd (dispatch (delete_question strict_env 2) small_db)).
Proof.
  exact (delete_question_twice strict_env failing_env 2 small_db eq_refl).
Defined.

(** ** The quiz, continued *)

(** X14. For a request with a [quiz_category] id and a list of ids as
    [previous_questions], the quiz always answers 200, and its question
    is null only when every question in scope is in the list: as long as
    one is left, it returns a question of the table that is in scope
    (of the chosen category, when the id is truthy) and not in the list. *)
Theorem play_quiz_returns_while_any_left
    (env : environment) (page : query_arg) (fields : list (key * value))
    (db : database) (d : list (key * value)) (category_id : value)
    (ids : list Z) :
  lookup (KStr "quiz_category") fields = Some (VDict d) ->
  lookup (KStr "id") d = Some category_id ->
  previous_questions_of fields = VList (List.map VInt ids) ->
  exists question,
    dispatch (play_quiz env {| args_page := page;
                               get_json := VDict fields |}) db
    = (Json 200 (VDict [ (KStr "success", VBool true);
                         (KStr "question", question) ]), db)
    /\ ((question = VNone
         /\ forall q, In q (questions db) -> in_scope env category_id q ->
                      In (Question.id q) ids)
        \/ (exists q, question = Question.format q
                      /\ In q (questions db)
                      /\ in_scope env category_id q
                      /\ ~ In (Question.id q) ids)).
Proof.
  intros Hqc Hid Hprev.
  rewrite play_quiz_dispatch. unfold field. rewrite Hqc. simpl getitem.
  rewrite Hid, Hprev. unfold notin_, iterable_items.
  rewrite bind_elements_ints.
  assert (Hnot : forall x, Sql.not_in (List.map Some ids) x = true
                           <-> ~ In x ids).
  { intros x. rewrite not_in_ints, negb_true_iff. split.
    - intros Hex Hin.
      assert (H : existsb (Z.eqb x) ids = true)
        by (apply existsb_exists; exists x; split;
            [exact Hin | apply Z.eqb_refl]).
      congruence.
    - intros Hnin. destruct (existsb (Z.eqb x) ids) eqn:Hex;
        [| reflexivity].
      apply existsb_exists in Hex. destruct Hex as (y & Hy & Hxy).
      apply Z.eqb_eq in Hxy. subst y. contradiction. }
  assert (Hgen : forall (criterion : Question.t -> bool),
             (forall q, criterion q = true <-> in_scope env category_id q) ->
             exists question,
               quiz_response env
                 (List.filter
                    (fun q => (criterion q
                               && Sql.not_in (List.map Some ids)
                                    (Question.id q))%bool)
                    (questions db))
               = Json 200 (VDict [ (KStr "success", VBool true);
                                   (KStr "question", question) ])
               /\ ((question = VNone
                    /\ forall q, In q (questions db) ->
                                 in_scope env category_id q ->
                                 In (Question.id q) ids)
                   \/ (exists q, question = Question.format q
                                 /\ In q (questions db)
                                 /\ in_scope env category_id q
                                 /\ ~ In (Question.id q) ids))).
  { intros criterion Hcrit. unfold quiz_response.
    destruct (List.filter _ (questions db)) as [| first rest] eqn:Hfilter.
    - exists VNone. split; [reflexivity | left]. split; [reflexivity |].
      intros q Hq Hscope.
      destruct (existsb (Z.eqb (Question.id q)) ids) eqn:Hex.
      + apply existsb_exists in Hex. destruct Hex as (y & Hy & Hxy).
        apply Z.eqb_eq in Hxy. now rewrite Hxy.
      + exfalso.
        assert (Hin : In q (List.filter
                              (fun q => (criterion q
                                         && Sql.not_in (List.map Some ids)
                                              (Question.id q))%bool)
                              (questions db))).
        { apply filter_In. split; [exact Hq |].
          apply andb_true_iff. split; [now apply Hcrit |].
          rewrite not_in_ints, Hex. reflexivity. }
        rewrite Hfilter in Hin. destruct Hin.
    - eexists. split; [reflexivity | right].
      exists (random_choice env first rest).
      pose proof (random_choice_In env first rest) as Hin.
      rewrite <- Hfilter in Hin. apply filter_In in Hin.
      destruct Hin as [Hin Hc]. apply andb_true_iff in Hc.
      destruct Hc as [Hc Hn].
      split; [reflexivity |]. split; [exact Hin |].
      split; [now apply Hcrit | now apply Hnot]. }
  unfold in_scope in *.
  destruct (truthy category_id).
  - destruct (Hgen (fun q => String.eqb (Question.category q)
                                (str (repr env) category_id)))
      as (question & Hresp & Hcases).
    + intros q. apply String.eqb_eq.
    + exists question. split; [now rewrite Hresp | exact Hcases].
  - destruct (Hgen (fun _ => true)) as (question & Hresp & Hcases).
    + intros q. tauto.
    + exists question. split; [| exact Hcases].
      rewrite <- Hresp. do 3 f_equal.
Qed.

Lemma play_quiz_returns_while_any_left_witness :
  exists question,
    dispatch
      (play_quiz strict_env
         (post_request
            (VDict [ (KStr "previous_questions", VList [VInt 1]);
                     (KStr "quiz_category",
                       VDict [ (KStr "id", VInt 1) ]) ]))) small_db
    = (Json 200 (VDict [ (KStr "success", VBool true);
                         (KStr "question", question) ]), small_db).
Proof.
  destruct (play_quiz_returns_while_any_left strict_env NoArg
              [ (KStr "previous_questions", VList [VInt 1]);
                (KStr "quiz_category", VDict [ (KStr "id", VInt 1) ]) ]
              small_db [ (KStr "id", VInt 1) ] (VInt 1) [1]
              eq_refl eq_refl eq_refl) as (question & Hresp & _).
  exists question. exact Hresp.
Defined.

(** X15. Malformed quiz input is a 422, never a 500, and changes nothing:
    a [quiz_category] that is present but not an object (a string, a
    number, a list, a boolean, null), and a [previous_questions] that is
    a string, a number, a boolean or null, whatever the category.  A dict
    as [previous_questions] is not malformed for the query: it counts
    with its keys, so that the empty dict excludes nothing, like the
    empty list. *)
Theorem play_quiz_malformed
    (env : environment) (page : query_arg) (fields : list (key * value))
    (db : database) :
  let r := {| args_page := page; get_json := VDict fields |} in
  (forall v, lookup (KStr "quiz_category") fields = Some v ->
             (forall d, v <> VDict d) ->
             dispatch (play_quiz env r) db = (unprocessable_entity, db))
  /\ ((forall l, previous_questions_of fields <> VList l) ->
      (forall d, previous_questions_of fields <> VDict d) ->
      dispatch (play_quiz env r) db = (unprocessable_entity, db))
  /\ (forall d category_id,
        lookup (KStr "quiz_category") fields = Some (VDict d) ->
        lookup (KStr "id") d = Some category_id ->
        previous_questions_of fields = VDict [] ->
        dispatch (play_quiz env r) db
        = (quiz_response env
             (List.filter
                (fun q =>
                   if truthy category_id
                   then String.eqb (Question.category q)
                          (str (repr env) category_id)
                   else true)
                (questions db)), db)).
Proof.
  cbv zeta. rewrite play_quiz_dispatch. split; [| split].
  - intros v Hv Hnot. unfold field. rewrite Hv.
    destruct v; try reflexivity. exfalso. now apply (Hnot d).
  - intros Hlist Hdict.
    destruct (getitem _ _); [| reflexivity].
    destruct (previous_questions_of fields); try reflexivity.
    + exfalso. now apply (Hlist l).
    + exfalso. now apply (Hdict d).
  - intros d category_id Hqc Hid Hprev.
    unfold field. rewrite Hqc. simpl getitem. rewrite Hid, Hprev.
    change (notin_ env (VDict [])) with (Return (Sql.not_in [])).
    destruct (truthy category_id).
    + rewrite (filter_ext _ (fun q => String.eqb (Question.category q)
                                        (str (repr env) category_id)));
        [reflexivity |].
      intros q. unfold Sql.not_in. simpl. apply andb_true_r.
    + rewrite (filter_ext _ (fun _ => true)); [reflexivity |].
      intros q. reflexivity.
Qed.

Lemma play_quiz_malformed_witness :
  dispatch
    (play_quiz strict_env
       (post_request (VDict [ (KStr "quiz_category", VStr "Science") ])))
    small_db
  = (unprocessable_entity, small_db)
  /\ dispatch
       (play_quiz strict_env
          (post_request
             (VDict [ (KStr "previous_questions", VInt 3);
                      (KStr "quiz_category",
                        VDict [ (KStr "id", VInt 1) ]) ]))) small_db
     = (unprocessable_entity, small_db)
  /\ status_code
       (fst (dispatch
               (play_quiz strict_env
                  (post_request
                     (VDict [ (KStr "previous_questions", VDict []);
                              (KStr "quiz_category",
                                VDict [ (KStr "id", VInt 0) ]) ])))
               small_db))
     = 200.
Proof.
  split; [| split].
  - refine (proj1 (play_quiz_malformed strict_env NoArg
                     [ (KStr "quiz_category", VStr "Science") ] small_db)
              (VStr "Science") eq_refl _).
    intros d H. discriminate H.
  - refine (proj1 (proj2 (play_quiz_malformed strict_env NoArg
                            [ (KStr "previous_questions", VInt 3);
                              (KStr "quiz_category",
                                VDict [ (KStr "id", VInt 1) ]) ] small_db))
              _ _).
    + intros l H. discriminate H.
    + intros d H. discriminate H.
  - unfold post_request.
    rewrite (proj2 (proj2 (play_quiz_malformed strict_env NoArg
                             [ (KStr "previous_questions", VDict []);
                               (KStr "quiz_category",
                                 VDict [ (KStr "id", VInt 0) ]) ] small_db))
               [ (KStr "id", VInt 0) ] (VInt 0) eq_refl eq_refl eq_refl).
    reflexivity.
Defined.

(** ** Case in the search *)

Fixpoint lower_string (s : string) : string :=
  match s with
  | EmptyString => EmptyString
  | String c s' => String (Sql.lower c) (lower_string s')
  end.

Lemma lower_idempotent (c : ascii) : Sql.lower (Sql.lower c) = Sql.lower c.
Proof. destruct c as [[] [] [] [] [] [] [] []]; reflexivity. Qed.

Lemma ci_eqb_lower_r (c d : ascii) :
  Sql.ci_eqb c (Sql.lower d) = Sql.ci_eqb c d.
Proof. unfold Sql.ci_eqb. now rewrite lower_idempotent. Qed.

Lemma ci_eqb_lower_l (c d : ascii) :
  Sql.ci_eqb (Sql.lower c) d = Sql.ci_eqb c d.
Proof. unfold Sql.ci_eqb. now rewrite lower_idempotent. Qed.

Lemma is_meta_lower (c : ascii) : is_meta (Sql.lower c) = is_meta c.
Proof. destruct c as [[] [] [] [] [] [] [] []]; reflexivity. Qed.

Lemma ilike_underscore (p text : string) :
  Sql.ilike (String "_" p) text =
  match text with
  | EmptyString => false
  | String _ text' => Sql.ilike p text'
  end.
Proof. destruct text; reflexivity. Qed.

Lemma ilike_escape (e : ascii) (p text : string) :
  Sql.ilike (String "\" (String e p)) text =
  match text with
  | EmptyString => false
  | String d text' => (Sql.ci_eqb e d && Sql.ilike p text')%bool
  end.
Proof. destruct text; reflexivity. Qed.

(** The three pattern characters, or another one. *)
Lemma pattern_char_cases (c : ascii) :
  c = "%"%char \/ c = "_"%char \/ c = "\"%char \/ is_meta c = false.
Proof.
  unfold is_meta.
  destruct (Ascii.eqb c "%") eqn:H1; [left; now apply Ascii.eqb_eq |].
  destruct (Ascii.eqb c "_") eqn:H2;
    [right; left; now apply Ascii.eqb_eq |].
  destruct (Ascii.eqb c "\") eqn:H3;
    [right; right; left; now apply Ascii.eqb_eq |].
  right; right; right. reflexivity.
Qed.

Definition text_case_blind (p : string) : Prop :=
  forall text, Sql.ilike p (lower_string text) = Sql.ilike p text.

Definition pattern_case_blind (p : string) : Prop :=
  forall text, Sql.ilike (lower_string p) text = Sql.ilike p text.

Definition tail_holds (P : string -> Prop) (p : string) : Prop :=
  match p with
  | EmptyString => True
  | String _ p' => P p'
  end.

Lemma text_case_blind_step (c : ascii) (p : string) :
  text_case_blind p -> tail_holds text_case_blind p ->
  text_case_blind (String c p).
Proof.
  intros Hp Htail text.
  destruct (pattern_char_cases c) as [-> | [-> | [-> | Hplain]]].
  - induction text as [| d text IH].
    + reflexivity.
    + simpl lower_string.
      rewrite (ilike_percent p (String (Sql.lower d) (lower_string text))).
      rewrite (ilike_percent p (String d text)).
      rewrite IH. f_equal. apply (Hp (String d text)).
  - rewrite !ilike_underscore. destruct text as [| d text]; simpl;
      [reflexivity | apply Hp].
  - destruct p as [| e p'].
    + destruct text; reflexivity.
    + rewrite !ilike_escape. destruct text as [| d text]; simpl;
        [reflexivity |].
      rewrite ci_eqb_lower_r. f_equal. apply Htail.
  - rewrite !ilike_plain_char by exact Hplain.
    destruct text as [| d text]; simpl; [reflexivity |].
    rewrite ci_eqb_lower_r. f_equal. apply Hp.
Qed.

Lemma ilike_text_case (p text : string) :
  Sql.ilike p (lower_string text) = Sql.ilike p text.
Proof.
  revert text.
  assert (H : text_case_blind p /\ tail_holds text_case_blind p).
  { induction p as [| c p [IH IHtail]].
    - split; [| exact I]. intros text. now destruct text.
    - split; [| exact IH]. now apply text_case_blind_step. }
  exact (proj1 H).
Qed.

Lemma pattern_case_blind_step (c : ascii) (p : string) :
  pattern_case_blind p -> tail_holds pattern_case_blind p ->
  pattern_case_blind (String c p).
Proof.
  intros Hp Htail text. simpl lower_string.
  destruct (pattern_char_cases c) as [-> | [-> | [-> | Hplain]]].
  - change (Sql.lower "%") with "%"%char.
    induction text as [| d text IH].
    + rewrite !ilike_percent. now rewrite Hp.
    + rewrite (ilike_percent (lower_string p) (String d text)).
      rewrite (ilike_percent p (String d text)).
      now rewrite IH, Hp.
  - change (Sql.lower "_") with "_"%char.
    rewrite !ilike_underscore. destruct text; [reflexivity | apply Hp].
  - change (Sql.lower "\") with "\"%char.
    destruct p as [| e p'].
    + destruct text; reflexivity.
    + simpl lower_string. rewrite !ilike_escape.
      destruct text as [| d text]; [reflexivity |].
      rewrite ci_eqb_lower_l. f_equal. apply Htail.
  - rewrite ilike_plain_char by (now rewrite is_meta_lower).
    rewrite ilike_plain_char by exact Hplain.
    destruct text as [| d text]; [reflexivity |].
    rewrite ci_eqb_lower_l. f_equal. apply Hp.
Qed.

Lemma ilike_pattern_case (p text : string) :
  Sql.ilike (lower_string p) text = Sql.ilike p text.
Proof.
  revert text.
  assert (H : pattern_case_blind p /\ tail_holds pattern_case_blind p).
  { induction p as [| c p [IH IHtail]].
    - split; [| exact I]. intros text. reflexivity.
    - split; [| exact IH]. now apply pattern_case_blind_step. }
  exact (proj1 H).
Qed.

Lemma lower_string_app (s t : string) :
  lower_string (s ++ t) = (lower_string s ++ lower_string t)%string.
Proof.
  induction s as [| c s IH]; simpl; [reflexivity | now rewrite IH].
Qed.

(** X16. The search does not see case, in the term or in the text: two
    string terms that are equal once their ASCII letters are lowered get
    the same answer from the same database, and whether a question is
    listed depends on its text only up to case. *)
Theorem search_questions_ignores_case
    (env : environment) (page page' : query_arg)
    (fields fields' : list (key * value)) (db : database)
    (term term' : string) :
  lookup (KStr "searchTerm") fields = Some (VStr term) ->
  lookup (KStr "searchTerm") fields' = Some (VStr term') ->
  lower_string term = lower_string term' ->
  dispatch (search_questions env {| args_page := page;
                                    get_json := VDict fields |}) db
  = dispatch (search_questions env {| args_page := page';
                                      get_json := VDict fields' |}) db
  /\ (forall text text',
         lower_string text = lower_string text' ->
         Sql.ilike ("%" ++ term ++ "%") text
         = Sql.ilike ("%" ++ term' ++ "%") text').
Proof.
  intros Hterm Hterm' Hcase.
  assert (Hpat : forall text text',
             lower_string text = lower_string text' ->
             Sql.ilike ("%" ++ term ++ "%") text
             = Sql.ilike ("%" ++ term' ++ "%") text').
  { intros text text' Htext.
    rewrite <- (ilike_text_case _ text), <- (ilike_text_case _ text').
    rewrite Htext.
    rewrite <- (ilike_pattern_case ("%" ++ term ++ "%")).
    rewrite <- (ilike_pattern_case ("%" ++ term' ++ "%")).
    rewrite !lower_string_app. now rewrite Hcase. }
  split; [| exact Hpat].
  rewrite !search_questions_dispatch. unfold search_term_of.
  rewrite Hterm, Hterm'. simpl str.
  rewrite (filter_ext _ (fun q => Sql.ilike ("%" ++ term' ++ "%")
                                    (Question.question q)));
    [reflexivity |].
  intros q. now apply Hpat.
Qed.

Lemma search_questions_ignores_case_witness :
  dispatch (search_questions strict_env
              (post_request (VDict [ (KStr "searchTerm", VStr "CAPITAL") ])))
    small_db
  = dispatch (search_questions strict_env
                (post_request (VDict [ (KStr "searchTerm", VStr "capital") ])))
      small_db.
Proof.
  exact (proj1 (search_questions_ignores_case strict_env NoArg NoArg
                  [ (KStr "searchTerm", VStr "CAPITAL") ]
                  [ (KStr "searchTerm", VStr "capital") ] small_db
                  "CAPITAL" "capital" eq_refl eq_refl eq_refl)).
Defined.

(** ** Categories do not overlap *)

Lemma to_int_not_nil (z : Z) :
  Z.to_int z <> Decimal.Pos Decimal.Nil
  /\ Z.to_int z <> Decimal.Neg Decimal.Nil.
Proof.
  destruct z as [| p | p]; simpl; split; try discriminate;
    intros H; injection H as H;
    exact (DecimalPos.Unsigned.to_uint_nonnil p H).
Qed.

(** [str] of an integer determines the integer. *)
Lemma str_int_inj (x y : Z) : str_int x = str_int y -> x = y.
Proof.
  unfold str_int. intros H.
  apply DecimalZ.to_int_inj.
  destruct (to_int_not_nil x) as [Hx1 Hx2].
  destruct (to_int_not_nil y) as [Hy1 Hy2].
  pose proof (NilZero.isi (Z.to_int x) Hx1 Hx2) as Ex.
  pose proof (NilZero.isi (Z.to_int y) Hy1 Hy2) as Ey.
  rewrite H in Ex. rewrite Ex in Ey. now injection Ey.
Qed.

Lemma format_inj (q q' : Question.t) :
  Question.format q = Question.format q' -> q = q'.
Proof.
  destruct q, q'. unfold Question.format. simpl.
  intros H. injection H as -> -> -> -> ->. reflexivity.
Qed.

(** The list under ["questions"] in a JSON answer (empty when there is no
    such list, as in the error envelopes). *)
Definition response_questions (resp : response) : list value :=
  match resp with
  | Json _ (VDict d) =>
      match lookup (KStr "questions") d with
      | Some (VList l) => l
      | _ => []
      end
  | _ => []
  end.

Lemma response_questions_by_category (category_id : Z) (db : database) :
  response_questions
    (fst (dispatch (get_questions_by_category category_id) db))
  = List.map Question.format
      (List.filter
         (fun q => String.eqb (Question.category q) (str_int category_id))
         (questions db)).
Proof.
  rewrite get_questions_by_category_dispatch.
  destruct (List.filter _ (questions db)); reflexivity.
Qed.

(** X17. The answers of [GET /categories/{id}/questions] for two different
    ids have no question in common, and every question they list is the
    formatted row of a question of the table whose category is the
    decimal text of the id. *)
Theorem categories_do_not_overlap (k k' : Z) (db : database) (v : value) :
  In v (response_questions
          (fst (dispatch (get_questions_by_category k) db))) ->
  (In v (response_questions
           (fst (dispatch (get_questions_by_category k') db))) -> k = k')
  /\ exists q, v = Question.format q
               /\ In q (questions db)
               /\ Question.category q = str_int k.
Proof.
  rewrite !response_questions_by_category.
  intros Hin. apply in_map_iff in Hin.
  destruct Hin as (q & <- & Hq). apply filter_In in Hq.
  destruct Hq as [Hq Hcat]. apply String.eqb_eq in Hcat.
  split.
  - intros Hin'. apply in_map_iff in Hin'.
    destruct Hin' as (q' & Heq & Hq'). apply format_inj in Heq. subst q'.
    apply filter_In in Hq'. destruct Hq' as [_ Hcat'].
    apply String.eqb_eq in Hcat'.
    apply str_int_inj. congruence.
  - exists q. repeat split; assumption.
Qed.

Lemma categories_do_not_overlap_witness :
  exists q,
    Question.format (sample_question 3 "Is the title short?" "2")
    = Question.format q
    /\ In q (questions small_db)
    /\ Question.category q = str_int 2.
Proof.
  refine (proj2 (categories_do_not_overlap 2 1 small_db
                   (Question.format
                      (sample_question 3 "Is the title short?" "2")) _)).
  left. reflexivity.
Defined.

(** ** The envelope of every answer *)

(** A JSON answer whose [success] field says whether the status is 200,
    and which, when it is not, carries the status under [error] and a
    message. *)
Definition well_enveloped (resp : response) : Prop :=
  match resp with
  | Json status (VDict d) =>
      lookup (KStr "success") d = Some (VBool (status =? 200))
      /\ (status = 200
          \/ (lookup (KStr "error") d = Some (VInt status)
              /\ exists message,
                   lookup (KStr "message") d = Some (VStr message)))
  | Json _ _ => False
  | FrameworkError _ => False
  end.

(** The answers of a handler that reads the body: enveloped, or one of the
    two pages of the framework -- the 500 for a parsed body that is not
    an object, and the page of the code with which [get_json] rejected
    the body when the application has no handler for that code. *)
Definition enveloped_or_framework (r : request) (resp : response) : Prop :=
  well_enveloped resp
  \/ (resp = FrameworkError 500
      /\ exists data : value,
           get_json r = data /\ forall fields, data <> VDict fields)
  \/ (exists code,
         get_json r = Rejected code
         /\ resp = FrameworkError code
         /\ code <> 400 /\ code <> 404 /\ code <> 422).

Lemma well_enveloped_errors :
  well_enveloped not_found /\ well_enveloped unprocessable_entity
  /\ well_enveloped bad_request.
Proof.
  repeat split; simpl; right; (split; [reflexivity | eexists; reflexivity]).
Qed.

Lemma errorhandler_enveloped (page : query_arg) (code : Z) :
  enveloped_or_framework {| args_page := page; get_json := Rejected code |}
    (errorhandler code).
Proof.
  destruct well_enveloped_errors as (H404 & H422 & H400).
  unfold errorhandler.
  destruct (code =? 404) eqn:E404; [now left |].
  destruct (code =? 422) eqn:E422; [now left |].
  destruct (code =? 400) eqn:E400; [now left |].
  apply Z.eqb_neq in E404, E422, E400.
  right; right. exists code. repeat split; assumption.
Qed.

(** X18. Every JSON answer of every handler is enveloped alike: an object
    whose [success] is true exactly when the status is 200 and which
    otherwise repeats the status under [error] next to a message.  The
    GET and DELETE handlers give no other answer.  The POST handlers give
    two more, both pages of the framework: the 500 when the parsed body is
    not an object, and the page of the code with which [get_json]
    rejected the body when that code is none of 400, 404 and 422. *)
Theorem answers_are_well_enveloped
    (env : environment) (r : request) (n : Z) (db : database) :
  well_enveloped (fst (dispatch get_categories db))
  /\ well_enveloped (fst (dispatch (get_questions r) db))
  /\ well_enveloped (fst (dispatch (get_questions_by_category n) db))
  /\ well_enveloped (fst (dispatch (delete_question env n) db))
  /\ enveloped_or_framework r (fst (dispatch (create_question env r) db))
  /\ enveloped_or_framework r (fst (dispatch (search_questions env r) db))
  /\ enveloped_or_framework r (fst (dispatch (play_quiz env r) db)).
Proof.
  destruct well_enveloped_errors as (H404 & H422 & _).
  assert (H200 : forall d,
             lookup (KStr "success") d = Some (VBool true) ->
             well_enveloped (Json 200 (VDict d))).
  { intros d Hd. simpl. split; [exact Hd | now left]. }
  assert (H500 : forall page (data : value),
             (forall fields, data <> VDict fields) ->
             enveloped_or_framework
               {| args_page := page; get_json := data |}
               (FrameworkError 500)).
  { intros page data Hdata. right; left. split; [reflexivity |].
    exists data. split; [reflexivity | exact Hdata]. }
  split; [| split; [| split; [| split; [| split; [| split]]]]].
  - rewrite get_categories_dispatch.
    destruct (categories db); [exact H404 | now apply H200].
  - rewrite get_questions_dispatch.
    destruct (paginate_questions _ _); [exact H404 | now apply H200].
  - rewrite get_questions_by_category_dispatch.
    destruct (List.filter _ _); [exact H404 | now apply H200].
  - rewrite delete_question_dispatch.
    destruct (List.find _ _); [| exact H404].
    destruct (commit_raises env); [exact H422 | now apply H200].
  - destruct r as [page body].
    destruct body as [[| | | | | fields] | code];
      try (apply H500; intros fields; discriminate);
      [| apply errorhandler_enveloped].
    left. rewrite create_question_dispatch.
    destruct (_ && _)%bool; [| exact H422].
    destruct (Question_insert _ _ _ _ _ _) as [[created | e] s'];
      [now apply H200 | exact H422].
  - destruct r as [page body].
    destruct body as [[| | | | | fields] | code];
      try (apply H500; intros fields; discriminate);
      [| apply errorhandler_enveloped].
    left. rewrite search_questions_dispatch. now apply H200.
  - destruct r as [page body].
    destruct body as [[| | | | | fields] | code];
      try (apply H500; intros fields; discriminate);
      [| apply errorhandler_enveloped].
    left. rewrite play_quiz_dispatch.
    destruct (getitem _ _); [| exact H422].
    destruct (notin_ _ _); [now apply H200 | exact H422].
Qed.

(** ** The order of the listing *)

Lemma id_le_trans : RelationClasses.Transitive id_le.
Proof. intros a b c. unfold id_le. lia. Qed.

Lemma sorted_head_least (a : Question.t) (l : list Question.t) :
  Sorted id_le (a :: l) -> forall x, In x l -> id_le a x.
Proof.
  intros Hs x Hx.
  apply (Sorted_StronglySorted id_le_trans) in Hs.
  inversion Hs as [| y l' _ Hall]; subst.
  rewrite Forall_forall in Hall. now apply Hall.
Qed.

Lemma sorted_distinct_unique (l l' : list Question.t) :
  Sorted id_le l -> Sorted id_le l' -> Permutation l l' ->
  NoDup (List.map Question.id l) -> l = l'.
Proof.
  revert l'. induction l as [| a l IH]; intros l' Hs Hs' Hperm Hnd.
  - apply Permutation_nil in Hperm. now subst.
  - destruct l' as [| b l'].
    + apply Permutation_sym, Permutation_nil in Hperm. discriminate.
    + assert (Hab : a = b).
      { assert (Ha : In a (b :: l'))
          by (eapply Permutation_in; [exact Hperm | now left]).
        assert (Hb : In b (a :: l))
          by (eapply Permutation_in;
              [apply Permutation_sym; exact Hperm | now left]).
        destruct Ha as [Ha | Ha]; [now symmetry |].
        destruct Hb as [Hb | Hb]; [exact Hb |].
        exfalso.
        pose proof (sorted_head_least b l' Hs' a Ha) as H1.
        pose proof (sorted_head_least a l Hs b Hb) as H2.
        unfold id_le in H1, H2.
        simpl in Hnd. inversion Hnd as [| y m Hnotin _]; subst.
        apply Hnotin. replace (Question.id a) with (Question.id b) by lia.
        now apply in_map. }
      subst b. f_equal.
      apply IH.
      * now inversion Hs.
      * now inversion Hs'.
      * now apply Permutation_cons_inv in Hperm.
      * simpl in Hnd. now inversion Hnd.
Qed.

(** X19. With distinct ids, the listing does not depend on the order in
    which the table holds its rows: two databases with the same
    categories whose question tables are permutations of each other get
    the same answer from [GET /questions], for every page. *)
Theorem get_questions_order_independent
    (r : request) (db db' : database) :
  NoDup (List.map Question.id (questions db)) ->
  Permutation (questions db) (questions db') ->
  categories db = categories db' ->
  order_by_id (questions db) = order_by_id (questions db')
  /\ fst (dispatch (get_questions r) db)
     = fst (dispatch (get_questions r) db').
Proof.
  intros Hnd Hperm Hcats.
  assert (Horder : order_by_id (questions db) = order_by_id (questions db')).
  { apply sorted_distinct_unique.
    - apply order_by_id_sorted.
    - apply order_by_id_sorted.
    - eapply perm_trans; [apply order_by_id_perm |].
      eapply perm_trans; [exact Hperm |].
      apply Permutation_sym, order_by_id_perm.
    - eapply Permutation_NoDup; [| exact Hnd].
      apply Permutation_map, Permutation_sym, order_by_id_perm. }
  split; [exact Horder |].
  rewrite !get_questions_dispatch. simpl fst.
  rewrite Horder, Hcats, (Permutation_length Hperm). reflexivity.
Qed.

Lemma get_questions_order_independent_witness :
  order_by_id (questions small_db)
  = order_by_id (rev (questions small_db)).
Proof.
  refine (proj1 (get_questions_order_independent (get_request NoArg)
                   small_db
                   {| questions := rev (questions small_db);
                      categories := categories small_db;
                      next_id := 4 |} _ _ eq_refl)).
  - simpl. repeat constructor; simpl; intuition discriminate.
  - apply Permutation_rev.
Defined.

(** ** More of the theorems at work on the sample data *)

Lemma not_an_object_is_500_witness :
  dispatch (play_quiz strict_env (post_request (VList []))) small_db
  = (FrameworkError 500, small_db).
Proof.
  refine (proj2 (proj2 (not_an_object_is_500 strict_env NoArg (VList [])
                          small_db _))).
  intros fields H. discriminate H.
Defined.

Lemma search_questions_plain_term_witness :
  dispatch (search_questions strict_env
              (post_request (VDict [ (KStr "searchTerm", VStr "TITLE") ])))
    small_db
  = (Json 200
       (VDict
          [ (KStr "success", VBool true);
            (KStr "questions",
              VList [ Question.format
                        (sample_question 3 "Is the title short?" "2") ]);
            (KStr "total_questions", VInt 1) ]),
     small_db).
Proof.
  exact (search_questions_plain_term strict_env NoArg
           [ (KStr "searchTerm", VStr "TITLE") ] small_db "TITLE"
           eq_refl eq_refl).
Defined.
